(** * QuickSight export: a shallow embedding of [quicksight_export.py]

    The script lists the data sets, analyses and dashboards of one account,
    fetches the definition of every listed item, saves the payloads as JSON
    files and keeps two process-wide tallies.  The embedding follows the
    script function by function:

    - Python values that travel through the script (the [boto3] responses)
      are JSON-like trees, [pyval]; a response is a [dict];
    - the remote service and the file system are oracles gathered in a
      [World]; every call to an oracle receives the history of the calls made
      so far, so a world may answer the same question differently each time;
    - the globals [successes] and [failures], the log file, the console and
      the history of outside calls form the [State] that every function
      threads;
    - a Python exception that nothing catches ([SystemExit] raised by
      [sys.exit()], or a [KeyError]/[TypeError]/[AttributeError] raised while
      indexing a payload) is the [Raise] outcome of the monad [M].

    The run starts once [argparse] has accepted the command line and the log
    file is set up; the calls to [logging] are taken to succeed. *)

From Stdlib Require Import String Ascii List ZArith Lia Bool Arith Sorted.
Import ListNotations.
Open Scope string_scope.
Open Scope list_scope.

Set Warnings "-register-all".

(** ** Data model *)

(** The three keys of the counters, which are also the values the driver
    puts in [resource_types]. *)
Inductive ResourceType : Type :=
  | data_sets
  | analyses
  | dashboards.

Definition ResourceType_eqb (a b : ResourceType) : bool :=
  match a, b with
  | data_sets, data_sets | analyses, analyses | dashboards, dashboards => true
  | _, _ => false
  end.

(** The string the script carries in [resource_type]. *)
Definition type_name (t : ResourceType) : string :=
  match t with
  | data_sets => "data_sets"
  | analyses => "analyses"
  | dashboards => "dashboards"
  end.

(** JSON-like Python values.  A [str] is a [string] of UTF-8 bytes: the byte
    of ['/'] never occurs inside a multi-byte sequence, so replacing it
    bytewise is replacing it characterwise. *)
Inductive pyval : Type :=
  | PNone
  | PBool (b : bool)
  | PInt (z : Z)
  | PStr (s : string)
  | PList (l : list pyval)
  | PDict (d : list (string * pyval)).

(** A dict keeps its keys in insertion order, which is the order
    [json.dump] writes them in. *)
Definition dict : Type := list (string * pyval).

(** [k in d] *)
Fixpoint dict_has (k : string) (d : dict) : bool :=
  match d with
  | [] => false
  | (k', _) :: r => if String.eqb k k' then true else dict_has k r
  end.

(** [d[k]], [None] standing for [KeyError] *)
Fixpoint dict_get (k : string) (d : dict) : option pyval :=
  match d with
  | [] => None
  | (k', v) :: r => if String.eqb k k' then Some v else dict_get k r
  end.

(** Truth value of a dict: [not d] holds of the empty dict only. *)
Definition dict_truthy (d : dict) : bool :=
  match d with
  | [] => false
  | _ :: _ => true
  end.

(** Exceptions that the script lets escape.  [BotoCoreError] stands for
    what [boto3.client(...)] raises when it cannot build a client (an
    invalid region name, for one). *)
Inductive pyexn : Type :=
  | SystemExit (code : option Z)
  | KeyError (key : string)
  | TypeError
  | AttributeError
  | BotoCoreError (error : string).

(** Exit status of the interpreter when [e] reaches the top level:
    [sys.exit()] carries no code and means success, a traceback gives 1. *)
Definition exit_status (e : pyexn) : Z :=
  match e with
  | SystemExit None => 0
  | SystemExit (Some c) => c
  | _ => 1
  end.

(** [v[k]] for a string key [k]: only a dict accepts it. *)
Definition py_getitem (v : pyval) (k : string) : pyexn + pyval :=
  match v with
  | PDict d =>
      match dict_get k d with
      | Some x => inr x
      | None => inl (KeyError k)
      end
  | _ => inl TypeError
  end.

(** One-character strings of [s], as [for c in s] yields them. *)
Fixpoint chars (s : string) : list pyval :=
  match s with
  | EmptyString => []
  | String c r => PStr (String c EmptyString) :: chars r
  end.

(** What [len(v)] and [enumerate(v)] see: the elements of a list, the keys
    of a dict, the characters of a str; anything else is a [TypeError]. *)
Definition py_iter (v : pyval) : pyexn + list pyval :=
  match v with
  | PList l => inr l
  | PDict d => inr (map (fun kv => PStr (fst kv)) d)
  | PStr s => inr (chars s)
  | _ => inl TypeError
  end.

(** [s.replace(old, new)] for a one-character [old]. *)
Fixpoint replace (old : ascii) (new : string) (s : string) : string :=
  match s with
  | EmptyString => EmptyString
  | String c r =>
      if Ascii.eqb c old then new ++ replace old new r
      else String c (replace old new r)
  end.

(** [v.replace('/', '--')]: of the values above only a str has the method. *)
Definition py_replace_slash (v : pyval) : pyexn + string :=
  match v with
  | PStr s => inr (replace "/" "--" s)
  | _ => inl AttributeError
  end.

(** ** The outside world *)

(** Outcome of the dealings of a function with [boto3]: the client is built
    first, outside any [try], then the operation is called inside a [try].
    [ApiReturn] is the response dict of the call and [ApiRaise] the
    exception the call raised, with its text; [ClientRaise] is the exception
    raised while the client was built, in which case no call is made. *)
Inductive ApiResult : Type :=
  | ApiReturn (response : dict)
  | ApiRaise (error : string)
  | ClientRaise (error : string).

(** Outcome of the block [if not os.path.exists(p): os.makedirs(p)]. *)
Inductive DirOutcome : Type :=
  | DirExists
  | DirCreated
  | DirFailed.

(** Calls made to the outside, with what came back.  [EvList] and
    [EvDescribe] are the dealings of the lister and of the fetcher with
    [boto3], client and call together.  [EvWrite] is the block
    [with open(filename, 'wt') as outfile: json.dump(...)]; its flag tells
    whether the block completed. *)
Inductive Event : Type :=
  | EvList (t : ResourceType) (r : ApiResult)
  | EvDescribe (t : ResourceType) (resource_id : pyval) (r : ApiResult)
  | EvMakedirs (path : string) (o : DirOutcome)
  | EvWrite (path : string) (json_data : dict) (saved : bool).

(** The oracles.  Each one is asked with the history so far, most recent
    call first. *)
Record World : Type := {
  aws_list : list Event -> ResourceType -> ApiResult;
  aws_describe : list Event -> ResourceType -> pyval -> ApiResult;
  fs_makedirs : list Event -> string -> DirOutcome;
  fs_dump : list Event -> string -> dict -> bool
}.

(** ** Program state *)

(** A counter dict with the three keys the script builds it with. *)
Record Counters : Type := {
  n_data_sets : nat;
  n_analyses : nat;
  n_dashboards : nat
}.

Definition zero : Counters :=
  {| n_data_sets := 0; n_analyses := 0; n_dashboards := 0 |}.

(** [c[t]] *)
Definition get (c : Counters) (t : ResourceType) : nat :=
  match t with
  | data_sets => n_data_sets c
  | analyses => n_analyses c
  | dashboards => n_dashboards c
  end.

(** [c[t] += 1] *)
Definition incr (c : Counters) (t : ResourceType) : Counters :=
  match t with
  | data_sets =>
      {| n_data_sets := S (n_data_sets c); n_analyses := n_analyses c;
         n_dashboards := n_dashboards c |}
  | analyses =>
      {| n_data_sets := n_data_sets c; n_analyses := S (n_analyses c);
         n_dashboards := n_dashboards c |}
  | dashboards =>
      {| n_data_sets := n_data_sets c; n_analyses := n_analyses c;
         n_dashboards := S (n_dashboards c) |}
  end.

Inductive Level : Type := INFO | ERROR | CRITICAL.

(** The messages of the script, one constructor per format string, holding
    the values the string interpolates. *)
Inductive Msg : Type :=
  | RetrievedList (t : ResourceType)
  | ListFailed (t : ResourceType) (error : string)
  | AwsCallFailed (t : ResourceType) (resource_id : pyval) (error : string)
  | EmbeddedError (t : ResourceType) (resource_id code message : pyval)
  | Retrieved (t : ResourceType)
  | CreatedDir (filepath : string)
  | DirCreationFailed (filepath : string)
  | Saved (name : string) (t : ResourceType)
  | SavedList (t : ResourceType)
  | SaveFailed (name : string) (t : ResourceType)
  | Summary (ok failed : Counters)
  | Progress (position total : nat) (t : ResourceType)
  | CursorUp.

(** Everything the script mutates.  The three lists grow at the head: the
    most recent record, line or call comes first. *)
Record State : Type := {
  successes : Counters;
  failures : Counters;
  log : list (Level * Msg);
  stdout : list Msg;
  trace : list Event
}.

Definition initial : State :=
  {| successes := zero; failures := zero; log := []; stdout := []; trace := [] |}.

(** ** The monad of the script *)

(** A call either returns a value or lets an exception escape; in both cases
    the mutations made so far stay. *)
Inductive Result (A : Type) : Type :=
  | Ok (a : A) (s : State)
  | Raise (e : pyexn) (s : State).

Arguments Ok {A} a s.
Arguments Raise {A} e s.

Definition M (A : Type) : Type := State -> Result A.

Definition ret {A : Type} (a : A) : M A := fun s => Ok a s.

Definition raise {A : Type} (e : pyexn) : M A := fun s => Raise e s.

Definition bind {A B : Type} (m : M A) (k : A -> M B) : M B :=
  fun s =>
    match m s with
    | Ok a s' => k a s'
    | Raise e s' => Raise e s'
    end.

Declare Scope py_scope.
Delimit Scope py_scope with py.
Notation "x <- m ;; k" := (bind m (fun x => k))
  (at level 61, m at next level, right associativity) : py_scope.
Notation "m ;; k" := (bind m (fun _ => k))
  (at level 61, right associativity) : py_scope.
Open Scope py_scope.

(** An indexing step of the script: its exception, if any, is not caught. *)
Definition lift {A : Type} (x : pyexn + A) : M A :=
  fun s =>
    match x with
    | inl e => Raise e s
    | inr a => Ok a s
    end.

(** State of the process when it ends, whichever way. *)
Definition final {A : Type} (r : Result A) : State :=
  match r with
  | Ok _ s => s
  | Raise _ s => s
  end.

(** [logging.info], [logging.error], [logging.critical] *)
Definition logging (lvl : Level) (m : Msg) : M unit :=
  fun s =>
    Ok tt {| successes := successes s; failures := failures s;
             log := (lvl, m) :: log s; stdout := stdout s; trace := trace s |}.

(** [print] *)
Definition print (m : Msg) : M unit :=
  fun s =>
    Ok tt {| successes := successes s; failures := failures s;
             log := log s; stdout := m :: stdout s; trace := trace s |}.

(** [successes[t] += 1] *)
Definition incr_successes (t : ResourceType) : M unit :=
  fun s =>
    Ok tt {| successes := incr (successes s) t; failures := failures s;
             log := log s; stdout := stdout s; trace := trace s |}.

(** [failures[t] += 1] *)
Definition incr_failures (t : ResourceType) : M unit :=
  fun s =>
    Ok tt {| successes := successes s; failures := incr (failures s) t;
             log := log s; stdout := stdout s; trace := trace s |}.

(** Adds a call to the history. *)
Definition record (e : Event) (s : State) : State :=
  {| successes := successes s; failures := failures s;
     log := log s; stdout := stdout s; trace := e :: trace s |}.

(** ** The script *)

(** Field of a list response that holds the summaries, and field of a
    summary that holds the identifier (lines 172-180). *)
Definition json_object_name (t : ResourceType) : string :=
  match t with
  | data_sets => "DataSetSummaries"
  | analyses => "AnalysisSummaryList"
  | dashboards => "DashboardSummaryList"
  end.

Definition json_object_id (t : ResourceType) : string :=
  match t with
  | data_sets => "DataSetId"
  | analyses => "AnalysisId"
  | dashboards => "DashboardId"
  end.

(** [c in s] for a one-character [c] *)
Fixpoint contains (c : ascii) (s : string) : bool :=
  match s with
  | EmptyString => false
  | String c' r => if Ascii.eqb c' c then true else contains c r
  end.

(** Lines 141-151.  [type_arg] is [cli_args.type]: [None] when the option is
    not given. *)
Definition resource_types (type_arg : option string) : list ResourceType :=
  match type_arg with
  | None => [data_sets; analyses; dashboards]
  | Some EmptyString => [data_sets; analyses; dashboards]
  | Some s =>
      (if contains "d" s then [data_sets] else [])
      ++ (if contains "a" s then [analyses] else [])
      ++ (if contains "b" s then [dashboards] else [])
  end.

(** [finish_export] *)
Definition finish_export {A : Type} : M A :=
  fun s =>
    let summary := Summary (successes s) (failures s) in
    (logging INFO summary;;
     print summary;;
     raise (SystemExit None)) s.

Section Script.

Variable w : World.

(** The three kinds of outside call, each adding itself to the history. *)
Definition call_list (t : ResourceType) : M ApiResult :=
  fun s =>
    let r := aws_list w (trace s) t in
    Ok r (record (EvList t r) s).

Definition call_describe (t : ResourceType) (resource_id : pyval) : M ApiResult :=
  fun s =>
    let r := aws_describe w (trace s) t resource_id in
    Ok r (record (EvDescribe t resource_id r) s).

Definition call_makedirs (filepath : string) : M DirOutcome :=
  fun s =>
    let o := fs_makedirs w (trace s) filepath in
    Ok o (record (EvMakedirs filepath o) s).

Definition call_dump (filename : string) (json_data : dict) : M bool :=
  fun s =>
    let b := fs_dump w (trace s) filename json_data in
    Ok b (record (EvWrite filename json_data b) s).

(** [list_quicksight_resources]; [None] is the bare [return].  The client
    is built at lines 13-14, before the [try]: what it raises escapes. *)
Definition list_quicksight_resources (t : ResourceType) : M (option dict) :=
  r <- call_list t;;
  match r with
  | ClientRaise error => raise (BotoCoreError error)
  | ApiReturn response =>
      logging INFO (RetrievedList t);;
      print (RetrievedList t);;
      ret (Some response)
  | ApiRaise error =>
      logging ERROR (ListFailed t error);;
      print (ListFailed t error);;
      ret None
  end.

(** [get_quicksight_resource].  The client is built at line 35, before
    the [try]: what it raises escapes.  The message of the embedded-error
    branch reads [response["Error"]["Code"]] and then
    [response["Error"]["Message"]] while it is built, outside any [try]. *)
Definition get_quicksight_resource (t : ResourceType) (resource_id : pyval)
  : M (option dict) :=
  r <- call_describe t resource_id;;
  match r with
  | ClientRaise error => raise (BotoCoreError error)
  | ApiRaise error =>
      logging ERROR (AwsCallFailed t resource_id error);;
      incr_failures t;;
      ret None
  | ApiReturn response =>
      if dict_has "Error" response then
        e1 <- lift (py_getitem (PDict response) "Error");;
        code <- lift (py_getitem e1 "Code");;
        e2 <- lift (py_getitem (PDict response) "Error");;
        message <- lift (py_getitem e2 "Message");;
        logging ERROR (EmbeddedError t resource_id code message);;
        ret None
      else
        logging INFO (Retrieved t);;
        ret (Some response)
  end.

(** Line 63: the directory of a resource type. *)
Definition definitions_dir (t : ResourceType) : string :=
  ("definitions/" ++ type_name t ++ "/")%string.

(** Lines 76-81: the name of the file to write. *)
Definition build_filename (filepath : string) (t : ResourceType)
    (name file_type : string) : string :=
  (if String.eqb file_type "list" then
     filepath ++ type_name t ++ "-list.json"
   else if String.eqb file_type "definition" then
     filepath ++ name ++ "-" ++ type_name t ++ ".json"
   else
     filepath ++ name)%string.

(** [write_json_file] *)
Definition write_json_file (t : ResourceType) (name file_type : string)
    (json_data : dict) : M unit :=
  let filepath := definitions_dir t in
  o <- call_makedirs filepath;;
  match o with
  | DirExists => ret tt
  | DirCreated => logging INFO (CreatedDir filepath)
  | DirFailed =>
      logging CRITICAL (DirCreationFailed filepath);;
      print (DirCreationFailed filepath);;
      finish_export
  end;;
  let filename := build_filename filepath t name file_type in
  saved <- call_dump filename json_data;;
  if saved then
    if String.eqb file_type "definition" then
      logging INFO (Saved name t);;
      incr_successes t
    else if String.eqb file_type "list" then
      logging INFO (SavedList t)
    else ret tt
  else
    logging ERROR (SaveFailed name t);;
    if String.eqb file_type "definition" then incr_failures t else ret tt.

(** Body of the loop over the listed resources (lines 187-197). *)
Definition export_resource (t : ResourceType) (res_total index : nat)
    (resource : pyval) : M unit :=
  resource_id <- lift (py_getitem resource (json_object_id t));;
  resource_json <- get_quicksight_resource t resource_id;;
  match resource_json with
  | Some definition =>
      if dict_truthy definition then
        name <- lift (py_getitem resource "Name");;
        filename <- lift (py_replace_slash name);;
        write_json_file t filename "definition" definition
      else ret tt
  | None => ret tt
  end;;
  print (Progress (index + 1) res_total t);;
  print CursorUp.

(** [for index, resource in enumerate(resources)] *)
Fixpoint export_resources (t : ResourceType) (res_total index : nat)
    (resources : list pyval) : M unit :=
  match resources with
  | [] => ret tt
  | resource :: rest =>
      export_resource t res_total index resource;;
      export_resources t res_total (S index) rest
  end.

(** Body of the loop over the resource types (lines 161-197). *)
Definition export_type (t : ResourceType) : M unit :=
  list_json <- list_quicksight_resources t;;
  match list_json with
  | Some response =>
      if dict_truthy response then
        write_json_file t "" "list" response;;
        resources <- lift (py_getitem (PDict response) (json_object_name t));;
        items <- lift (py_iter resources);;
        export_resources t (length items) 0 items
      else ret tt
  | None => ret tt
  end.

(** [for resource_type in resource_types] *)
Fixpoint export_types (types : list ResourceType) : M unit :=
  match types with
  | [] => ret tt
  | t :: rest => export_type t;; export_types rest
  end.

(** The script from line 141 on, started with the counters at zero. *)
Definition main (type_arg : option string) : Result unit :=
  (export_types (resource_types type_arg);; finish_export) initial.

End Script.

(** ** Worlds used as examples *)

(** A summary as the list calls return it, and a list response holding
    summaries under the field of its type. *)
Definition summary (t : ResourceType) (resource_id name : string) : pyval :=
  PDict [(json_object_id t, PStr resource_id); ("Name", PStr name)].

Definition listing (t : ResourceType) (items : list pyval) : dict :=
  [(json_object_name t, PList items); ("Status", PInt 200)].

(** A describe response that carries a definition for [resource_id]. *)
Definition definition_of (resource_id : pyval) : dict :=
  [("ResourceId", resource_id); ("Status", PInt 200)].

(** A describe response that arrived but carries an error object. *)
Definition embedded_error : dict :=
  [("Error", PDict [("Code", PStr "AccessDenied"); ("Message", PStr "denied")])].

(** [v == s] for a str [s] *)
Definition is_str (s : string) (v : pyval) : bool :=
  match v with
  | PStr x => String.eqb x s
  | _ => false
  end.

(** A file system where nothing fails: a directory is created the first
    time and found afterwards. *)
Definition created_before (filepath : string) (e : Event) : bool :=
  match e with
  | EvMakedirs p DirCreated => String.eqb p filepath
  | _ => false
  end.

Definition makedirs_ok (history : list Event) (filepath : string) : DirOutcome :=
  if existsb (created_before filepath) history then DirExists else DirCreated.

(** Three dashboards; the describe call for the second one returns an
    embedded error, every other call succeeds. *)
Definition three_dashboards : World :=
  {| aws_list := fun _ t =>
       match t with
       | dashboards =>
           ApiReturn (listing dashboards
             [summary dashboards "d1" "Alpha"; summary dashboards "d2" "Beta";
              summary dashboards "d3" "Gamma"])
       | _ => ApiReturn (listing t [])
       end;
     aws_describe := fun _ _ resource_id =>
       if is_str "d2" resource_id then ApiReturn embedded_error
       else ApiReturn (definition_of resource_id);
     fs_makedirs := makedirs_ok;
     fs_dump := fun _ _ _ => true |}.

(** Two data sets, one with a slash in its name; the list call for the
    analyses raises; the disk refuses the file of the second data set. *)
Definition two_data_sets : World :=
  {| aws_list := fun _ t =>
       match t with
       | data_sets =>
           ApiReturn (listing data_sets
             [summary data_sets "s1" "Sales/Q1"; summary data_sets "s2" "Sales-Q2"])
       | analyses => ApiRaise "EndpointConnectionError"
       | dashboards => ApiReturn []
       end;
     aws_describe := fun _ _ resource_id => ApiReturn (definition_of resource_id);
     fs_makedirs := makedirs_ok;
     fs_dump := fun _ filename _ =>
       negb (String.eqb filename "definitions/data_sets/Sales-Q2-data_sets.json") |}.

(** A world whose disk accepts no directory. *)
Definition read_only_disk : World :=
  {| aws_list := aws_list two_data_sets;
     aws_describe := aws_describe two_data_sets;
     fs_makedirs := fun _ _ => DirFailed;
     fs_dump := fun _ _ _ => false |}.

(** A world whose describe calls all raise. *)
Definition unreachable_definitions : World :=
  {| aws_list := fun _ t =>
       ApiReturn (listing t [summary t "a1" "Costs"; summary t "a2" "Margins"]);
     aws_describe := fun _ _ _ => ApiRaise "ThrottlingException";
     fs_makedirs := makedirs_ok;
     fs_dump := fun _ _ _ => true |}.

(** A world whose describe calls return an empty dict. *)
Definition empty_definitions : World :=
  {| aws_list := aws_list unreachable_definitions;
     aws_describe := fun _ _ _ => ApiReturn [];
     fs_makedirs := makedirs_ok;
     fs_dump := fun _ _ _ => true |}.

(** A world where no client can be built, as with an invalid region. *)
Definition invalid_region : World :=
  {| aws_list := fun _ _ => ClientRaise "InvalidRegionError";
     aws_describe := fun _ _ _ => ClientRaise "InvalidRegionError";
     fs_makedirs := makedirs_ok;
     fs_dump := fun _ _ _ => true |}.

(** A world whose list responses lack the field of the summaries. *)
Definition headless_listing : World :=
  {| aws_list := fun _ _ => ApiReturn [("Status", PInt 200)];
     aws_describe := fun _ _ resource_id => ApiReturn (definition_of resource_id);
     fs_makedirs := makedirs_ok;
     fs_dump := fun _ _ _ => true |}.

(** ** Vocabulary of the properties *)

(** Terminal outcomes counted so far for [t]. *)
Definition tally (s : State) (t : ResourceType) : nat :=
  get (successes s) t + get (failures s) t.

(** Number of items a list response holds for [t]: what [len(resources)]
    gives, 0 when the response has no such sequence. *)
Definition items_of (t : ResourceType) (response : dict) : nat :=
  match dict_get (json_object_name t) response with
  | Some resources =>
      match py_iter resources with
      | inr items => length items
      | inl _ => 0
      end
  | None => 0
  end.

(** Number of items listed for [t] by the list calls of a history. *)
Fixpoint listed (t : ResourceType) (history : list Event) : nat :=
  match history with
  | [] => 0
  | EvList t' (ApiReturn response) :: h =>
      (if ResourceType_eqb t t' then items_of t response else 0) + listed t h
  | _ :: h => listed t h
  end.

(** The character of the [-t] option that stands for a type. *)
Definition type_char (t : ResourceType) : ascii :=
  match t with
  | data_sets => "d"
  | analyses => "a"
  | dashboards => "b"
  end%char.

Definition char_type (c : ascii) : option ResourceType :=
  if Ascii.eqb c "d" then Some data_sets
  else if Ascii.eqb c "a" then Some analyses
  else if Ascii.eqb c "b" then Some dashboards
  else None.

(** Position of a type in the fixed order. *)
Definition rank (t : ResourceType) : nat :=
  match t with
  | data_sets => 0
  | analyses => 1
  | dashboards => 2
  end.

(** The order the specification words for a given [-t]: the types its
    characters name, in the order the characters are written.  It is not
    taken from the script; [resource_types] is compared with it. *)
Fixpoint caller_specified_order (s : string) : list ResourceType :=
  match s with
  | EmptyString => []
  | String c r =>
      match char_type c with
      | Some t => t :: caller_specified_order r
      | None => caller_specified_order r
      end
  end.

(** Shape of the payloads as the data model gives them: a summary is a dict
    with the identifier of its type and a [Name] that is a str; a list
    response is empty or holds a list of summaries under the field of its
    type; an error object has a [Code] and a [Message]. *)
Definition summary_ok (t : ResourceType) (item : pyval) : bool :=
  match item with
  | PDict d =>
      dict_has (json_object_id t) d
      && match dict_get "Name" d with
         | Some (PStr _) => true
         | _ => false
         end
  | _ => false
  end.

Definition list_response_ok (t : ResourceType) (response : dict) : bool :=
  match response with
  | [] => true
  | _ :: _ =>
      match dict_get (json_object_name t) response with
      | Some (PList items) => forallb (summary_ok t) items
      | _ => false
      end
  end.

Definition describe_response_ok (response : dict) : bool :=
  match dict_get "Error" response with
  | Some (PDict e) => dict_has "Code" e && dict_has "Message" e
  | Some _ => false
  | None => true
  end.

Definition well_shaped (w : World) : Prop :=
  (forall history t response,
      aws_list w history t = ApiReturn response ->
      list_response_ok t response = true)
  /\ (forall history t resource_id response,
      aws_describe w history t resource_id = ApiReturn response ->
      describe_response_ok response = true).

(** Every client the lister and the fetcher ask for is built. *)
Definition clients_built (w : World) : Prop :=
  (forall history t error, aws_list w history t <> ClientRaise error)
  /\ (forall history t resource_id error,
        aws_describe w history t resource_id <> ClientRaise error).

(** A path that lies directly in the directory of a resource type: the
    directory followed by a name without ['/']. *)
Definition well_placed (path : string) : Prop :=
  exists t base,
    path = (definitions_dir t ++ base)%string /\ contains "/" base = false.

Definition writes_well_placed (history : list Event) : Prop :=
  forall path json_data saved,
    In (EvWrite path json_data saved) history -> well_placed path.

(** A directory creation that failed. *)
Definition dir_failed (e : Event) : bool :=
  match e with
  | EvMakedirs _ DirFailed => true
  | _ => false
  end.

(** The end of a run that [finish_export] closed: the summary of the final
    counters is the last record of the log and the last line printed, and
    the interpreter exits with status 0. *)
Definition exported (r : Result unit) : Prop :=
  exists s,
    r = Raise (SystemExit None) s
    /\ hd_error (log s) = Some (INFO, Summary (successes s) (failures s))
    /\ hd_error (stdout s) = Some (Summary (successes s) (failures s)).

(** An execution of [m] from a state that satisfies [P] ends either with a
    value and a state that satisfy [Q], or with an escaping exception and a
    state that satisfy [E]. *)
Definition hoare {A : Type} (P : State -> Prop) (m : M A)
    (Q : A -> State -> Prop) (E : pyexn -> State -> Prop) : Prop :=
  forall s, P s ->
    match m s with
    | Ok a s' => Q a s'
    | Raise e s' => E e s'
    end.

(** No directory creation has failed so far. *)
Definition no_dir_failure (s : State) : Prop :=
  existsb dir_failed (trace s) = false.

(** The state a failed directory creation leaves: the failed call is the
    last call made to the outside, the critical message and then the summary
    of the counters are the last records of the log and the last lines
    printed. *)
Definition aborted (s : State) : Prop :=
  exists filepath history records lines,
    trace s = EvMakedirs filepath DirFailed :: history
    /\ existsb dir_failed history = false
    /\ log s = (INFO, Summary (successes s) (failures s))
               :: (CRITICAL, DirCreationFailed filepath) :: records
    /\ stdout s = Summary (successes s) (failures s)
                  :: DirCreationFailed filepath :: lines.

(** With [n] items of type [t] still to be processed, the outcomes counted
    and the items left do not exceed what was listed. *)
Definition bounded (n : nat) (t : ResourceType) (s : State) : Prop :=
  forall t',
    tally s t' + (if ResourceType_eqb t' t then n else 0)
    <= listed t' (trace s).

(** Number of list calls made for [t] in a history. *)
Fixpoint list_calls (t : ResourceType) (history : list Event) : nat :=
  match history with
  | [] => 0
  | EvList t' _ :: h =>
      (if ResourceType_eqb t t' then 1 else 0) + list_calls t h
  | _ :: h => list_calls t h
  end.

(** What may have happened when an exception escapes: either no directory
    creation failed, or one did and the run was closed at once. *)
Definition abort_or_clean (e : pyexn) (s : State) : Prop :=
  no_dir_failure s \/ (e = SystemExit None /\ aborted s).

(** What [finish_export] leaves when it is the one that raises. *)
Definition closed (e : pyexn) (s : State) : Prop :=
  exported (Raise e s).

(** Every file written so far lies directly in a directory of a type. *)
Definition placed (s : State) : Prop := writes_well_placed (trace s).

(** A write of the file [path], attempted or completed. *)
Definition written_to (path : string) (e : Event) : bool :=
  match e with
  | EvWrite p _ _ => String.eqb p path
  | _ => false
  end.

(** What the specification words for the order of processing, to be
    compared with the script: all three types when [-t] is absent, the
    caller's order otherwise. *)
Definition processed_in_caller_order : Prop :=
  resource_types None = [data_sets; analyses; dashboards]
  /\ forall s, resource_types (Some s) = caller_specified_order s.

(** What the specification words for the end of a run: whatever the world
    answers, the run is closed by [finish_export]. *)
Definition always_exported : Prop :=
  forall (w : World) (type_arg : option string), exported (main w type_arg).

(** ** Reading the history *)

(** Whether the most recent call of a history is the save of a definition of
    type [t], and how it went: such a save comes right after the directory
    check that follows a describe call for [t]. *)
Definition definition_save (t : ResourceType) (history : list Event)
  : option bool :=
  match history with
  | EvWrite _ _ saved :: EvMakedirs _ _ :: EvDescribe t' _ _ :: _ =>
      if ResourceType_eqb t t' then Some saved else None
  | _ => None
  end.

(** Number of definition saves of type [t] that ended as [outcome] says. *)
Fixpoint count_saves (outcome : bool) (t : ResourceType)
    (history : list Event) : nat :=
  match history with
  | [] => 0
  | e :: h =>
      match definition_save t (e :: h) with
      | Some saved => if Bool.eqb saved outcome then 1 else 0
      | None => 0
      end + count_saves outcome t h
  end.

(** Number of describe calls for [t] that raised. *)
Fixpoint raised_describes (t : ResourceType) (history : list Event) : nat :=
  match history with
  | [] => 0
  | EvDescribe t' _ (ApiRaise _) :: h =>
      (if ResourceType_eqb t t' then 1 else 0) + raised_describes t h
  | _ :: h => raised_describes t h
  end.

(** Number of describe calls made for [t]. *)
Fixpoint describes (t : ResourceType) (history : list Event) : nat :=
  match history with
  | [] => 0
  | EvDescribe t' _ _ :: h =>
      (if ResourceType_eqb t t' then 1 else 0) + describes t h
  | _ :: h => describes t h
  end.

(** The describe calls of a history, most recent first. *)
Fixpoint described (history : list Event) : list (ResourceType * pyval) :=
  match history with
  | [] => []
  | EvDescribe t resource_id _ :: h => (t, resource_id) :: described h
  | _ :: h => described h
  end.

(** The types of the list calls of a history, most recent first. *)
Fixpoint listed_types (history : list Event) : list ResourceType :=
  match history with
  | [] => []
  | EvList t _ :: h => t :: listed_types h
  | _ :: h => listed_types h
  end.

(** The counters tell what the history tells. *)
Definition accounted (s : State) : Prop :=
  forall t,
    get (successes s) t = count_saves true t (trace s)
    /\ get (failures s) t
       = raised_describes t (trace s) + count_saves false t (trace s).

(** Every listed item was fetched. *)
Definition all_fetched (s : State) : Prop :=
  forall t, describes t (trace s) = listed t (trace s).

(** With [n] items of type [t] still to fetch, the describe calls made and
    the items left add up to what was listed. *)
Definition pending (n : nat) (t : ResourceType) (s : State) : Prop :=
  forall t',
    describes t' (trace s) + (if ResourceType_eqb t' t then n else 0)
    = listed t' (trace s).

(** Number of describe calls for [t] that returned something the driver
    does not save: a response with an error object, or an empty one. *)
Fixpoint skipped (t : ResourceType) (history : list Event) : nat :=
  match history with
  | [] => 0
  | EvDescribe t' _ (ApiReturn response) :: h =>
      (if ResourceType_eqb t t'
          && (dict_has "Error" response || negb (dict_truthy response))
       then 1 else 0) + skipped t h
  | _ :: h => skipped t h
  end.

(** Every describe call made so far has had its outcome: it raised, its
    definition was saved or could not be saved, or it was skipped. *)
Definition settled (s : State) : Prop :=
  forall t,
    describes t (trace s)
    = raised_describes t (trace s) + count_saves true t (trace s)
      + count_saves false t (trace s) + skipped t (trace s).

(** [s] starts with [p]. *)
Fixpoint starts_with (p s : string) : bool :=
  match p with
  | EmptyString => true
  | String a p' =>
      match s with
      | EmptyString => false
      | String b s' => if Ascii.eqb a b then starts_with p' s' else false
      end
  end.

(** Every write of a history comes right after a directory check that did
    not fail, and writes, unchanged, the response of the call made before
    that check: a definition without error object in the directory of its
    type after a describe call, the list file of the type after a list
    call. *)
Fixpoint verbatim (history : list Event) : Prop :=
  match history with
  | [] => True
  | EvWrite path json_data _ :: h =>
      match h with
      | EvMakedirs filepath o :: EvDescribe t _ r :: _ =>
          o <> DirFailed /\ filepath = definitions_dir t
          /\ r = ApiReturn json_data
          /\ dict_has "Error" json_data = false
          /\ dict_truthy json_data = true
          /\ starts_with filepath path = true
      | EvMakedirs filepath o :: EvList t r :: _ =>
          o <> DirFailed /\ filepath = definitions_dir t
          /\ r = ApiReturn json_data
          /\ dict_truthy json_data = true
          /\ path = build_filename filepath t "" "list"
      | _ => False
      end /\ verbatim h
  | _ :: h => verbatim h
  end.

Definition writes_verbatim (s : State) : Prop := verbatim (trace s).

(** The lines the loop over [n] resources prints, the first at position
    [index], in the order they are printed. *)
Definition progress_lines (t : ResourceType) (total index n : nat)
  : list Msg :=
  flat_map (fun i => [Progress (i + 1) total t; CursorUp]) (seq index n).

Definition is_summary (m : Msg) : bool :=
  match m with
  | Summary _ _ => true
  | _ => false
  end.

(** No summary was logged or printed so far, and no directory creation has
    failed. *)
Definition unfinished (s : State) : Prop :=
  existsb (fun r => is_summary (snd r)) (log s) = false
  /\ existsb is_summary (stdout s) = false
  /\ no_dir_failure s.

(** The two ways an exception leaves the script: the exit of
    [finish_export] called by the writer, or an exception of an indexing
    step, which is not a [SystemExit] and comes before any summary. *)
Definition left_by (e : pyexn) (s : State) : Prop :=
  (e = SystemExit None /\ aborted s)
  \/ (exit_status e = 1%Z /\ unfinished s).

(** * Properties *)

(** ** Running the script symbolically *)

Arguments definitions_dir : simpl never.
Arguments build_filename : simpl never.

Ltac unfold_script :=
  unfold main, export_type, export_resource, write_json_file,
    get_quicksight_resource, list_quicksight_resources, finish_export,
    call_list, call_describe, call_makedirs, call_dump,
    logging, print, incr_successes, incr_failures, record,
    lift, bind, ret, raise in *.

(** Splits on whatever the next step of the script inspects. *)
Ltac split_on x :=
  lazymatch x with
  | context [match ?y with _ => _ end] => split_on y
  | _ => destruct x eqn:?
  end.

Ltac split_match :=
  match goal with
  | |- context [match ?x with _ => _ end] => split_on x
  end.

Ltac run_script := unfold_script; simpl; repeat (split_match; simpl).

Lemma bind_final {A B : Type} (m : M A) (k : A -> M B) (s : State) :
  final (bind m k s) =
  match m s with
  | Ok a s' => final (k a s')
  | Raise _ s' => s'
  end.
Proof. unfold bind. destruct (m s); reflexivity. Qed.

Lemma dict_has_get (k : string) (d : dict) :
  dict_has k d = true <-> exists v, dict_get k d = Some v.
Proof.
  induction d as [|[k' v'] d IH]; simpl.
  - split; [discriminate | intros [v H]; discriminate].
  - destruct (String.eqb k k').
    + split; [intros _; eexists; reflexivity | reflexivity].
    + exact IH.
Qed.

(** [c[t] += 1] makes the count of [t] one more and leaves the others. *)
Lemma get_incr_same (c : Counters) (t : ResourceType) :
  get (incr c t) t = S (get c t).
Proof. destruct t; reflexivity. Qed.

Lemma get_incr_other (c : Counters) (t t' : ResourceType) :
  t' <> t -> get (incr c t) t' = get c t'.
Proof. destruct t, t'; simpl; congruence. Qed.

(** ** The writer *)

Section Writer.

Variable w : World.
Variables (t : ResourceType) (name file_type : string) (json_data : dict).
Variable s : State.

(** A directory that cannot be created ends the process at once, through
    [finish_export]. *)
Lemma write_json_file_abort :
  fs_makedirs w (trace s) (definitions_dir t) = DirFailed ->
  write_json_file w t name file_type json_data s =
  Raise (SystemExit None)
    {| successes := successes s; failures := failures s;
       log := (INFO, Summary (successes s) (failures s))
              :: (CRITICAL, DirCreationFailed (definitions_dir t)) :: log s;
       stdout := Summary (successes s) (failures s)
                 :: DirCreationFailed (definitions_dir t) :: stdout s;
       trace := EvMakedirs (definitions_dir t) DirFailed :: trace s |}.
Proof.
  intros H. unfold_script. simpl. rewrite H. reflexivity.
Qed.

(** Otherwise the writer returns, having tried to write one file. *)
Lemma write_json_file_returns (o : DirOutcome) :
  fs_makedirs w (trace s) (definitions_dir t) = o ->
  o <> DirFailed ->
  exists s',
    write_json_file w t name file_type json_data s = Ok tt s'
    /\ stdout s' = stdout s
    /\ trace s' =
       EvWrite (build_filename (definitions_dir t) t name file_type) json_data
         (fs_dump w (EvMakedirs (definitions_dir t) o :: trace s)
            (build_filename (definitions_dir t) t name file_type) json_data)
       :: EvMakedirs (definitions_dir t) o :: trace s.
Proof.
  intros H Ho. unfold_script. simpl. rewrite H.
  destruct o; try congruence; simpl;
    repeat (split_match; simpl); eexists; repeat split; reflexivity.
Qed.

End Writer.

(** C7: the writer changes the counters in exactly one way per outcome of a
    definition save: a saved definition makes [successes[t]] one more and
    leaves every other count as it was, a definition that could not be
    saved logs an error and makes [failures[t]] one more and leaves every
    other count as it was; saving a list, whether it works or not, changes
    neither counter.  Outside the writer only the fetcher touches a
    counter, and only when the describe call raised, making [failures[t]]
    one more: the lister and [finish_export] leave both counters as they
    are. *)
Theorem writer_counter_effect :
  (forall (w : World) (t : ResourceType) (name file_type : string)
          (json_data : dict) (s : State) (o : DirOutcome) (saved : bool),
      fs_makedirs w (trace s) (definitions_dir t) = o ->
      o <> DirFailed ->
      fs_dump w (EvMakedirs (definitions_dir t) o :: trace s)
        (build_filename (definitions_dir t) t name file_type) json_data = saved ->
      exists s',
        write_json_file w t name file_type json_data s = Ok tt s'
        /\ (file_type = "definition" -> saved = true ->
            get (successes s') t = S (get (successes s) t)
            /\ (forall t', t' <> t ->
                  get (successes s') t' = get (successes s) t')
            /\ failures s' = failures s)
        /\ (file_type = "definition" -> saved = false ->
            successes s' = successes s
            /\ get (failures s') t = S (get (failures s) t)
            /\ (forall t', t' <> t ->
                  get (failures s') t' = get (failures s) t')
            /\ hd_error (log s') = Some (ERROR, SaveFailed name t))
        /\ (file_type = "list" ->
            successes s' = successes s /\ failures s' = failures s
            /\ (saved = false ->
                hd_error (log s') = Some (ERROR, SaveFailed name t))))
  /\ (forall (w : World) (t : ResourceType) (s : State),
        successes (final (list_quicksight_resources w t s)) = successes s
        /\ failures (final (list_quicksight_resources w t s)) = failures s)
  /\ (forall (w : World) (t : ResourceType) (resource_id : pyval) (s : State),
        let s' := final (get_quicksight_resource w t resource_id s) in
        successes s' = successes s
        /\ match aws_describe w (trace s) t resource_id with
           | ApiRaise _ =>
               get (failures s') t = S (get (failures s) t)
               /\ (forall t', t' <> t ->
                     get (failures s') t' = get (failures s) t')
           | ApiReturn _ => failures s' = failures s
           | ClientRaise _ => failures s' = failures s
           end)
  /\ (forall (s : State),
        successes (final (@finish_export unit s)) = successes s
        /\ failures (final (@finish_export unit s)) = failures s).
Proof.
  split; [|split; [|split]].
  - intros w t name file_type json_data s o saved Ho Hne Hs.
    unfold_script. simpl. rewrite Ho.
    destruct o; try congruence; simpl; rewrite Hs;
      (destruct saved; simpl;
       [ destruct (String.eqb file_type "definition") eqn:Hd; simpl;
         [ | destruct (String.eqb file_type "list") eqn:Hl; simpl ]
       | destruct (String.eqb file_type "definition") eqn:Hd; simpl ]);
      eexists; (split; [reflexivity|]); simpl;
      repeat split; try reflexivity; try discriminate;
      intros; subst; simpl in *; try discriminate;
      first [ reflexivity | apply get_incr_same
            | apply get_incr_other; assumption ].
  - intros w t s. run_script; split; reflexivity.
  - intros w t resource_id s. run_script; repeat split;
      first [ reflexivity | apply get_incr_same
            | intros; apply get_incr_other; assumption ].
  - intros s. split; reflexivity.
Qed.

(** ** Rules for the triples *)

Section Rules.

Context {A B : Type}.

Lemma hoare_bind (P : State -> Prop) (m : M A) (Q : A -> State -> Prop)
    (k : A -> M B) (R : B -> State -> Prop) (E : pyexn -> State -> Prop) :
  hoare P m Q E ->
  (forall a, hoare (Q a) (k a) R E) ->
  hoare P (bind m k) R E.
Proof.
  intros Hm Hk s Hs. unfold bind. specialize (Hm s Hs).
  destruct (m s) as [a s'|e s']; [apply (Hk a s' Hm) | exact Hm].
Qed.

Lemma hoare_weaken (P P' : State -> Prop) (m : M A)
    (Q Q' : A -> State -> Prop) (E E' : pyexn -> State -> Prop) :
  hoare P' m Q' E' ->
  (forall s, P s -> P' s) ->
  (forall a s, Q' a s -> Q a s) ->
  (forall e s, E' e s -> E e s) ->
  hoare P m Q E.
Proof.
  intros Hm HP HQ HE s Hs. specialize (Hm s (HP s Hs)).
  destruct (m s); auto.
Qed.

Lemma hoare_ret (P : State -> Prop) (a : A) (E : pyexn -> State -> Prop) :
  hoare P (ret a) (fun _ => P) E.
Proof. intros s Hs. exact Hs. Qed.

End Rules.

(** A loop over a list keeps what its body keeps. *)
Lemma hoare_export_types (w : World) (I : State -> Prop)
    (E : pyexn -> State -> Prop) :
  (forall t, hoare I (export_type w t) (fun _ => I) E) ->
  forall types, hoare I (export_types w types) (fun _ => I) E.
Proof.
  intros Hbody types. induction types as [|t rest IH]; simpl.
  - apply hoare_ret.
  - eapply hoare_bind; [apply Hbody | intros ?; exact IH].
Qed.

Lemma hoare_export_resources (w : World) (t : ResourceType) (total : nat)
    (I : State -> Prop) (E : pyexn -> State -> Prop) :
  (forall index resource,
      hoare I (export_resource w t total index resource) (fun _ => I) E) ->
  forall resources index,
    hoare I (export_resources w t total index resources) (fun _ => I) E.
Proof.
  intros Hbody resources. induction resources as [|r rest IH]; intros index; simpl.
  - apply hoare_ret.
  - eapply hoare_bind; [apply Hbody | intros ?; apply IH].
Qed.

(** ** One outcome per item *)

Lemma eqb_refl_type (t : ResourceType) : ResourceType_eqb t t = true.
Proof. destruct t; reflexivity. Qed.

Lemma eqb_eq_type (t t' : ResourceType) :
  ResourceType_eqb t' t = true -> t' = t.
Proof. destruct t, t'; simpl; congruence. Qed.

Lemma tally_cases (t t' : ResourceType) (c : Counters) :
  get (incr c t) t' = get c t' + (if ResourceType_eqb t' t then 1 else 0).
Proof. destruct t, t'; simpl; lia. Qed.

(** Effect of one item on the counters and on the history of list calls. *)
Lemma export_resource_tally (w : World) (t : ResourceType)
    (total index : nat) (resource : pyval) (s : State) :
  let s' := final (export_resource w t total index resource s) in
  (forall t',
      tally s t' <= tally s' t'
      /\ tally s' t' <= tally s t' + (if ResourceType_eqb t' t then 1 else 0))
  /\ (forall t', listed t' (trace s') = listed t' (trace s))
  /\ (forall t', list_calls t' (trace s') = list_calls t' (trace s)).
Proof.
  unfold tally. run_script;
    (split; [intros t'|split; intros t']; simpl; try reflexivity;
     rewrite ?tally_cases; destruct (ResourceType_eqb t' t); lia).
Qed.

(** The loop over [n] listed items adds at most [n] outcomes. *)
Lemma export_resources_bounded (w : World) (t : ResourceType) (total : nat)
    (resources : list pyval) :
  forall index,
    hoare (bounded (length resources) t)
      (export_resources w t total index resources)
      (fun _ => bounded 0 t) (fun _ => bounded 0 t).
Proof.
  induction resources as [|r rest IH]; intros index; simpl.
  - intros s Hs. exact Hs.
  - eapply hoare_bind with (Q := fun _ => bounded (length rest) t);
      [|intros ?; apply IH].
    intros s Hs.
    destruct (export_resource_tally w t total index r s) as (Ht & Hl & _).
    destruct (export_resource w t total index r s) as [a s'|e s']; simpl in *;
      intros t'; specialize (Hs t'); specialize (Ht t'); specialize (Hl t');
      rewrite Hl; destruct (ResourceType_eqb t' t); lia.
Qed.

(** Saving a list leaves the counters and the list calls as they are. *)
Lemma write_list_tally (w : World) (t : ResourceType) (name : string)
    (json_data : dict) (s : State) :
  let s' := final (write_json_file w t name "list" json_data s) in
  successes s' = successes s /\ failures s' = failures s
  /\ (forall t', listed t' (trace s') = listed t' (trace s))
  /\ (forall t', list_calls t' (trace s') = list_calls t' (trace s)).
Proof.
  run_script; repeat split; reflexivity.
Qed.

Lemma items_of_length (t : ResourceType) (response : dict)
    (resources : pyval) (items : list pyval) :
  py_getitem (PDict response) (json_object_name t) = inr resources ->
  py_iter resources = inr items ->
  items_of t response = length items.
Proof.
  unfold items_of. simpl.
  destruct (dict_get (json_object_name t) response); [|discriminate].
  intros [= ->] ->. reflexivity.
Qed.

(** State in which the lister returns. *)
Lemma list_quicksight_resources_eq (w : World) (t : ResourceType) (s : State) :
  list_quicksight_resources w t s =
  match aws_list w (trace s) t with
  | ApiReturn response =>
      Ok (Some response)
        {| successes := successes s; failures := failures s;
           log := (INFO, RetrievedList t) :: log s;
           stdout := RetrievedList t :: stdout s;
           trace := EvList t (ApiReturn response) :: trace s |}
  | ApiRaise error =>
      Ok None
        {| successes := successes s; failures := failures s;
           log := (ERROR, ListFailed t error) :: log s;
           stdout := ListFailed t error :: stdout s;
           trace := EvList t (ApiRaise error) :: trace s |}
  | ClientRaise error =>
      Raise (BotoCoreError error)
        {| successes := successes s; failures := failures s;
           log := log s; stdout := stdout s;
           trace := EvList t (ClientRaise error) :: trace s |}
  end.
Proof.
  unfold_script. simpl. destruct (aws_list w (trace s) t); reflexivity.
Qed.

(** The body of the loop over the types, split at the list call. *)
Lemma export_type_eq (w : World) (t : ResourceType) (s : State) :
  export_type w t s =
  match list_quicksight_resources w t s with
  | Ok (Some response) s1 =>
      if dict_truthy response then
        match write_json_file w t "" "list" response s1 with
        | Ok _ s2 =>
            match py_getitem (PDict response) (json_object_name t) with
            | inr resources =>
                match py_iter resources with
                | inr items => export_resources w t (length items) 0 items s2
                | inl e => Raise e s2
                end
            | inl e => Raise e s2
            end
        | Raise e s2 => Raise e s2
        end
      else Ok tt s1
  | Ok None s1 => Ok tt s1
  | Raise e s1 => Raise e s1
  end.
Proof.
  unfold export_type. unfold bind at 1.
  destruct (list_quicksight_resources w t s) as [[response|] s1|e s1];
    try reflexivity.
  destruct (dict_truthy response); [|reflexivity].
  unfold bind at 1.
  destruct (write_json_file w t "" "list" response s1) as [a s2|e s2];
    [|reflexivity].
  unfold bind at 1. unfold lift at 1.
  destruct (py_getitem (PDict response) (json_object_name t)); [reflexivity|].
  unfold bind at 1. unfold lift at 1.
  destruct (py_iter p); reflexivity.
Qed.

(** Processing a type keeps the outcomes counted below the items listed. *)
Lemma export_type_bounded (w : World) (t : ResourceType) :
  hoare (bounded 0 t) (export_type w t)
    (fun _ => bounded 0 t) (fun _ => bounded 0 t).
Proof.
  intros s Hs. rewrite export_type_eq, list_quicksight_resources_eq.
  assert (Hs' : forall t', tally s t' <= listed t' (trace s)).
  { intros t'. specialize (Hs t'). destruct (ResourceType_eqb t' t); lia. }
  clear Hs.
  destruct (aws_list w (trace s) t) as [response|error|error] eqn:Hl.
  2, 3: intros t'; specialize (Hs' t'); unfold tally in *; simpl;
    destruct (ResourceType_eqb t' t); lia.
  destruct (dict_truthy response) eqn:Htruthy.
  2: { intros t'. specialize (Hs' t'). unfold tally in *. simpl.
       destruct (ResourceType_eqb t' t); lia. }
  match goal with
  | |- context [write_json_file w t "" "list" response ?s1] =>
      pose proof (write_list_tally w t "" response s1) as (Hsu & Hfa & Hli & _);
      destruct (write_json_file w t "" "list" response s1) as [a s2|e s2]
  end; simpl in Hsu, Hfa, Hli.
  2: { intros t'. specialize (Hs' t'). unfold tally in *.
       rewrite Hsu, Hfa, Hli. simpl. destruct (ResourceType_eqb t' t); lia. }
  destruct (py_getitem (PDict response) (json_object_name t))
    as [e|resources] eqn:Hget.
  { intros t'. specialize (Hs' t'). unfold tally in *.
    rewrite Hsu, Hfa, Hli. simpl. destruct (ResourceType_eqb t' t); lia. }
  destruct (py_iter resources) as [e|items] eqn:Hiter.
  { intros t'. specialize (Hs' t'). unfold tally in *.
    rewrite Hsu, Hfa, Hli. simpl. destruct (ResourceType_eqb t' t); lia. }
  apply export_resources_bounded.
  intros t'. specialize (Hs' t'). unfold tally in *.
  rewrite Hsu, Hfa, Hli. cbn [listed trace successes failures].
  destruct (ResourceType_eqb t' t) eqn:Heq; [|lia].
  apply eqb_eq_type in Heq. subst t'.
  rewrite (items_of_length t response _ _ Hget Hiter). lia.
Qed.

Lemma bounded_any (t t0 : ResourceType) (s : State) :
  bounded 0 t s -> bounded 0 t0 s.
Proof.
  intros H t'. specialize (H t').
  destruct (ResourceType_eqb t' t), (ResourceType_eqb t' t0); lia.
Qed.

Lemma export_types_bounded (w : World) (types : list ResourceType) :
  hoare (bounded 0 data_sets) (export_types w types)
    (fun _ => bounded 0 data_sets) (fun _ => bounded 0 data_sets).
Proof.
  apply hoare_export_types. intros t.
  eapply hoare_weaken; [apply (export_type_bounded w t)| | |];
    cbv beta; intros; eapply bounded_any; eassumption.
Qed.

(** The run as a whole: what [finish_export] adds to the loop. *)
Lemma main_eq (w : World) (type_arg : option string) :
  main w type_arg =
  match export_types w (resource_types type_arg) initial with
  | Ok _ s => finish_export s
  | Raise e s => Raise e s
  end.
Proof. reflexivity. Qed.

Lemma finish_export_eq {A : Type} (s : State) :
  @finish_export A s =
  Raise (SystemExit None)
    {| successes := successes s; failures := failures s;
       log := (INFO, Summary (successes s) (failures s)) :: log s;
       stdout := Summary (successes s) (failures s) :: stdout s;
       trace := trace s |}.
Proof. reflexivity. Qed.

Lemma main_bounded (w : World) (type_arg : option string) (t : ResourceType) :
  tally (final (main w type_arg)) t
  <= listed t (trace (final (main w type_arg))).
Proof.
  rewrite main_eq.
  assert (H0 : bounded 0 data_sets initial) by (intros t'; destruct t'; simpl; lia).
  pose proof (export_types_bounded w (resource_types type_arg) initial H0) as H.
  destruct (export_types w (resource_types type_arg) initial) as [a s|e s];
    [rewrite finish_export_eq|]; simpl; specialize (H t);
    unfold tally in *; simpl in *.
  all: destruct (ResourceType_eqb t data_sets); lia.
Qed.

(** List calls: one per processed type. *)
Lemma export_resources_list_calls (w : World) (t : ResourceType) (total : nat)
    (resources : list pyval) :
  forall index s t',
    list_calls t' (trace (final (export_resources w t total index resources s)))
    = list_calls t' (trace s).
Proof.
  induction resources as [|r rest IH]; intros index s t'; simpl.
  - reflexivity.
  - rewrite bind_final.
    destruct (export_resource_tally w t total index r s) as (_ & _ & Hc).
    destruct (export_resource w t total index r s) as [a s'|e s']; simpl in Hc.
    + rewrite IH. apply Hc.
    + apply Hc.
Qed.

Lemma export_type_list_calls (w : World) (t : ResourceType) (s : State)
    (t' : ResourceType) :
  list_calls t' (trace (final (export_type w t s)))
  = (if ResourceType_eqb t' t then 1 else 0) + list_calls t' (trace s).
Proof.
  rewrite export_type_eq, list_quicksight_resources_eq.
  destruct (aws_list w (trace s) t) as [response|error|error];
    [|reflexivity|reflexivity].
  destruct (dict_truthy response); [|reflexivity].
  match goal with
  | |- context [write_json_file w t "" "list" response ?s1] =>
      pose proof (write_list_tally w t "" response s1) as (_ & _ & _ & Hc);
      destruct (write_json_file w t "" "list" response s1) as [a s2|e s2]
  end; simpl in Hc; [|rewrite Hc; reflexivity].
  destruct (py_getitem (PDict response) (json_object_name t));
    [simpl; rewrite Hc; reflexivity|].
  destruct (py_iter p); [simpl; rewrite Hc; reflexivity|].
  rewrite export_resources_list_calls, Hc. reflexivity.
Qed.

Lemma export_types_list_calls (w : World) (t' : ResourceType)
    (types : list ResourceType) :
  forall s,
    list_calls t' (trace (final (export_types w types s)))
    <= length (filter (ResourceType_eqb t') types) + list_calls t' (trace s).
Proof.
  induction types as [|t rest IH]; intros s; simpl.
  - lia.
  - rewrite bind_final.
    pose proof (export_type_list_calls w t s t') as Hc.
    destruct (export_type w t s) as [a s1|e s1]; simpl in Hc.
    + specialize (IH s1). destruct (ResourceType_eqb t' t); simpl; lia.
    + destruct (ResourceType_eqb t' t); simpl; lia.
Qed.

Lemma resource_types_once (type_arg : option string) (t : ResourceType) :
  length (filter (ResourceType_eqb t) (resource_types type_arg)) <= 1.
Proof.
  destruct type_arg as [[|c r]|]; try (destruct t; simpl; lia).
  unfold resource_types.
  destruct (contains "d" (String c r)), (contains "a" (String c r)),
    (contains "b" (String c r)), t; simpl; lia.
Qed.

Lemma main_list_calls (w : World) (type_arg : option string)
    (t : ResourceType) :
  list_calls t (trace (final (main w type_arg))) <= 1.
Proof.
  rewrite main_eq.
  pose proof (export_types_list_calls w t (resource_types type_arg) initial) as H.
  pose proof (resource_types_once type_arg t) as H1.
  destruct (export_types w (resource_types type_arg) initial) as [a s|e s];
    [rewrite finish_export_eq|]; simpl in *; lia.
Qed.

(** C2: an item adds at most one to the counters of its type and nothing to
    the others; when the describe call raises, the fetcher adds one to
    [failures[t]] and the item is over with that single call to the outside,
    so the writer is not reached; at the end of every run, however it ends,
    [successes[t] + failures[t]] is at most the number of items listed for
    [t], a type being listed at most once. *)
Theorem one_outcome_per_item :
  (forall (w : World) (t : ResourceType) (total index : nat)
          (resource : pyval) (s : State) (t' : ResourceType),
      let s' := final (export_resource w t total index resource s) in
      tally s t' <= tally s' t'
      /\ tally s' t' <= tally s t' + (if ResourceType_eqb t' t then 1 else 0))
  /\ (forall (w : World) (t : ResourceType) (total index : nat)
             (resource resource_id : pyval) (error : string) (s : State),
        py_getitem resource (json_object_id t) = inr resource_id ->
        aws_describe w (trace s) t resource_id = ApiRaise error ->
        let s' := final (export_resource w t total index resource s) in
        failures s' = incr (failures s) t
        /\ successes s' = successes s
        /\ trace s' = EvDescribe t resource_id (ApiRaise error) :: trace s)
  /\ (forall (w : World) (type_arg : option string) (t : ResourceType),
        let s' := final (main w type_arg) in
        get (successes s') t + get (failures s') t <= listed t (trace s')
        /\ list_calls t (trace s') <= 1).
Proof.
  split; [|split].
  - intros w t total index resource s t'.
    apply (export_resource_tally w t total index resource s).
  - intros w t total index resource resource_id error s Hid Hraise.
    unfold export_resource. unfold bind at 1. unfold lift at 1. rewrite Hid.
    unfold_script. simpl. rewrite Hraise. simpl. repeat split; reflexivity.
  - intros w type_arg t. split.
    + apply main_bounded.
    + apply main_list_calls.
Qed.

(** ** Directory failures *)


Ltac close_clean H :=
  first
    [ exact H
    | left; exact H
    | right; split; [reflexivity|];
      do 4 eexists; repeat split; exact H ].

Lemma export_resource_clean (w : World) (t : ResourceType)
    (total index : nat) (resource : pyval) :
  hoare no_dir_failure (export_resource w t total index resource)
    (fun _ => no_dir_failure) abort_or_clean.
Proof.
  intros s H. unfold abort_or_clean, aborted, no_dir_failure in *.
  run_script; close_clean H.
Qed.

Lemma write_list_clean (w : World) (t : ResourceType) (json_data : dict) :
  hoare no_dir_failure (write_json_file w t "" "list" json_data)
    (fun _ => no_dir_failure) abort_or_clean.
Proof.
  intros s H. unfold abort_or_clean, aborted, no_dir_failure in *.
  run_script; close_clean H.
Qed.

Lemma export_type_clean (w : World) (t : ResourceType) :
  hoare no_dir_failure (export_type w t)
    (fun _ => no_dir_failure) abort_or_clean.
Proof.
  unfold export_type.
  eapply hoare_bind with (Q := fun _ => no_dir_failure).
  { intros s H. unfold abort_or_clean, no_dir_failure in *.
    run_script; first [exact H|left; exact H]. }
  intros [response|]; [|apply hoare_ret].
  destruct (dict_truthy response); [|apply hoare_ret].
  eapply hoare_bind; [apply write_list_clean|]. intros ?.
  eapply hoare_bind with (Q := fun _ => no_dir_failure).
  { intros s H. unfold lift. split_match; [left|]; exact H. }
  intros resources.
  eapply hoare_bind with (Q := fun _ => no_dir_failure).
  { intros s H. unfold lift. split_match; [left|]; exact H. }
  intros items. apply hoare_export_resources. intros.
  apply export_resource_clean.
Qed.

Lemma main_aborted (w : World) (type_arg : option string) :
  existsb dir_failed (trace (final (main w type_arg))) = true ->
  exists s, main w type_arg = Raise (SystemExit None) s /\ aborted s.
Proof.
  rewrite main_eq.
  assert (H0 : no_dir_failure initial) by reflexivity.
  pose proof (hoare_export_types w no_dir_failure abort_or_clean
                (export_type_clean w) (resource_types type_arg) initial H0) as H.
  destruct (export_types w (resource_types type_arg) initial) as [a s|e s].
  - rewrite finish_export_eq. simpl. unfold no_dir_failure in H. congruence.
  - simpl. destruct H as [H|[-> H]].
    + unfold no_dir_failure in H. congruence.
    + intros _. exists s. split; [reflexivity|exact H].
Qed.

(** C3: when the directory of a resource type cannot be created, the writer
    logs a critical message, prints it, then logs and prints the summary of
    the counters as they stand and ends the process with [sys.exit()]; a run
    in which a directory creation failed made no further call to the
    outside and ended exactly so. *)
Theorem directory_failure_ends_run_with_summary :
  (forall (w : World) (t : ResourceType) (name file_type : string)
          (json_data : dict) (s : State),
      fs_makedirs w (trace s) (definitions_dir t) = DirFailed ->
      exists s',
        write_json_file w t name file_type json_data s
        = Raise (SystemExit None) s'
        /\ exit_status (SystemExit None) = 0%Z
        /\ successes s' = successes s /\ failures s' = failures s
        /\ log s' = (INFO, Summary (successes s) (failures s))
                    :: (CRITICAL, DirCreationFailed (definitions_dir t))
                    :: log s
        /\ stdout s' = Summary (successes s) (failures s)
                       :: DirCreationFailed (definitions_dir t) :: stdout s
        /\ trace s' = EvMakedirs (definitions_dir t) DirFailed :: trace s)
  /\ (forall (w : World) (type_arg : option string),
        existsb dir_failed (trace (final (main w type_arg))) = true ->
        exists s,
          main w type_arg = Raise (SystemExit None) s /\ aborted s).
Proof.
  split.
  - intros w t name file_type json_data s H.
    eexists. split; [apply write_json_file_abort; exact H|].
    repeat split; reflexivity.
  - apply main_aborted.
Qed.

(** ** Exit of the process *)

Section WellShaped.

Variable w : World.
Hypothesis shaped : well_shaped w.
Hypothesis built : clients_built w.

Lemma get_quicksight_resource_returns (t : ResourceType)
    (resource_id : pyval) (s : State) :
  exists r s', get_quicksight_resource w t resource_id s = Ok r s'.
Proof.
  destruct shaped as [_ Hd]. destruct built as [_ Hb].
  unfold get_quicksight_resource, call_describe. unfold bind at 1.
  specialize (Hd (trace s) t resource_id).
  specialize (Hb (trace s) t resource_id).
  destruct (aws_describe w (trace s) t resource_id) as [response|error|error];
    [| |destruct (Hb error eq_refl)].
  - specialize (Hd response eq_refl). unfold describe_response_ok in Hd.
    destruct (dict_has "Error" response) eqn:He.
    + apply dict_has_get in He. destruct He as [v He]. rewrite He in Hd.
      destruct v; try discriminate.
      apply andb_true_iff in Hd. destruct Hd as [Hc Hm].
      apply dict_has_get in Hc, Hm. destruct Hc as [c Hc], Hm as [m Hm].
      unfold_script. simpl. rewrite He. simpl. rewrite Hc, Hm.
      eexists; eexists; reflexivity.
    + unfold_script. eexists; eexists; reflexivity.
  - unfold_script. eexists; eexists; reflexivity.
Qed.

Lemma write_json_file_closed (t : ResourceType) (name file_type : string)
    (json_data : dict) :
  hoare (fun _ => True) (write_json_file w t name file_type json_data)
    (fun _ _ => True) closed.
Proof.
  intros s _.
  destruct (fs_makedirs w (trace s) (definitions_dir t)) eqn:Ho.
  - destruct (write_json_file_returns w t name file_type json_data s DirExists Ho)
      as (s' & -> & _); [discriminate|exact I].
  - destruct (write_json_file_returns w t name file_type json_data s DirCreated Ho)
      as (s' & -> & _); [discriminate|exact I].
  - rewrite (write_json_file_abort w t name file_type json_data s Ho).
    eexists. repeat split; reflexivity.
Qed.

Lemma export_resource_closed (t : ResourceType) (total index : nat)
    (resource : pyval) :
  summary_ok t resource = true ->
  hoare (fun _ => True) (export_resource w t total index resource)
    (fun _ _ => True) closed.
Proof.
  intros Hok s _. unfold summary_ok in Hok.
  destruct resource as [| | | | |d]; try discriminate.
  apply andb_true_iff in Hok. destruct Hok as [Hid Hname].
  apply dict_has_get in Hid. destruct Hid as [resource_id Hid].
  destruct (dict_get "Name" d) as [[| | |nm| |]|] eqn:Hn; try discriminate.
  unfold export_resource. unfold bind at 1. unfold lift at 1. simpl.
  rewrite Hid. unfold bind at 1.
  destruct (get_quicksight_resource_returns t resource_id s) as (r & s1 & ->).
  unfold bind at 1.
  destruct r as [definition|]; [|exact I].
  destruct (dict_truthy definition); [|exact I].
  unfold bind at 1. unfold lift at 1. rewrite Hn.
  unfold bind at 1. unfold lift at 1. simpl.
  pose proof (write_json_file_closed t (replace "/" "--" nm) "definition"
                definition s1 I) as Hw.
  destruct (write_json_file w t (replace "/" "--" nm) "definition" definition s1);
    [exact I|exact Hw].
Qed.

Lemma export_resources_closed (t : ResourceType) (total : nat)
    (resources : list pyval) :
  forallb (summary_ok t) resources = true ->
  forall index,
    hoare (fun _ => True) (export_resources w t total index resources)
      (fun _ _ => True) closed.
Proof.
  induction resources as [|r rest IH]; simpl; intros Hall index.
  - intros s _. exact I.
  - apply andb_true_iff in Hall. destruct Hall as [Hr Hrest].
    eapply hoare_bind; [apply export_resource_closed; exact Hr|].
    intros ?. apply IH. exact Hrest.
Qed.

Lemma export_type_closed (t : ResourceType) :
  hoare (fun _ => True) (export_type w t) (fun _ _ => True) closed.
Proof.
  intros s _. rewrite export_type_eq, list_quicksight_resources_eq.
  destruct shaped as [Hl _]. specialize (Hl (trace s) t).
  destruct built as [Hb _]. specialize (Hb (trace s) t).
  destruct (aws_list w (trace s) t) as [response|error|error];
    [|exact I|destruct (Hb error eq_refl)].
  specialize (Hl response eq_refl). unfold list_response_ok in Hl.
  destruct response as [|kv response']; [exact I|].
  set (response := kv :: response') in *.
  change (dict_truthy response) with true. cbv iota.
  match goal with
  | |- context [write_json_file w t "" "list" response ?s1] =>
      pose proof (write_json_file_closed t "" "list" response s1 I) as Hw;
      destruct (write_json_file w t "" "list" response s1) as [a s2|e s2]
  end; [|exact Hw].
  cbn [py_getitem].
  destruct (dict_get (json_object_name t) response) as [[| | | |items|]|];
    try discriminate.
  cbn [py_iter].
  apply (export_resources_closed t (length items) items Hl 0 s2 I).
Qed.

Lemma main_exported (type_arg : option string) :
  exported (main w type_arg).
Proof.
  rewrite main_eq.
  pose proof (hoare_export_types w (fun _ => True) closed export_type_closed
                (resource_types type_arg) initial I) as H.
  destruct (export_types w (resource_types type_arg) initial) as [a s|e s].
  - rewrite finish_export_eq. eexists. repeat split; reflexivity.
  - exact H.
Qed.

End WellShaped.


(** ** File names *)

Lemma contains_append (c : ascii) (a b : string) :
  contains c (a ++ b) = contains c a || contains c b.
Proof.
  induction a as [|x a IH]; simpl; [reflexivity|].
  destruct (Ascii.eqb x c); [reflexivity|exact IH].
Qed.

(** Replacing a character by a string that does not hold it removes it. *)
Lemma contains_replace (old : ascii) (new s : string) :
  contains old new = false ->
  contains old (replace old new s) = false.
Proof.
  intros Hnew. induction s as [|x s IH]; simpl; [reflexivity|].
  destruct (Ascii.eqb x old) eqn:Hx.
  - rewrite contains_append, Hnew, IH. reflexivity.
  - simpl. rewrite Hx. exact IH.
Qed.

Lemma type_name_no_slash (t : ResourceType) (suffix : string) :
  contains "/" suffix = false ->
  contains "/" (type_name t ++ suffix) = false.
Proof.
  intros H. rewrite contains_append, H. destruct t; reflexivity.
Qed.

Lemma definition_name_no_slash (t : ResourceType) (name : string) :
  contains "/" (replace "/" "--" name ++ "-" ++ type_name t ++ ".json") = false.
Proof.
  rewrite contains_append, contains_replace by reflexivity.
  rewrite contains_append. simpl.
  apply type_name_no_slash. reflexivity.
Qed.

Lemma list_file_placed (t : ResourceType) (name : string) :
  well_placed (build_filename (definitions_dir t) t name "list").
Proof.
  exists t, (type_name t ++ "-list.json")%string. split; [reflexivity|].
  apply type_name_no_slash. reflexivity.
Qed.

Lemma definition_file_placed (t : ResourceType) (name : string) :
  well_placed
    (build_filename (definitions_dir t) t (replace "/" "--" name) "definition").
Proof.
  exists t, (replace "/" "--" name ++ "-" ++ type_name t ++ ".json")%string.
  split; [reflexivity|apply definition_name_no_slash].
Qed.

Lemma placed_write (path : string) (json_data : dict) (saved : bool)
    (history : list Event) :
  well_placed path -> writes_well_placed history ->
  writes_well_placed (EvWrite path json_data saved :: history).
Proof.
  intros Hp Hh p d b [H|H]; [injection H as <- _ _; exact Hp|eapply Hh; exact H].
Qed.

Lemma placed_other (e : Event) (history : list Event) :
  match e with EvWrite _ _ _ => False | _ => True end ->
  writes_well_placed history -> writes_well_placed (e :: history).
Proof.
  intros He Hh p d b [H|H]; [subst e; destruct He|eapply Hh; exact H].
Qed.

Ltac close_placed H :=
  repeat first
    [ exact H
    | apply placed_other; [exact I|]
    | apply placed_write; [first [apply definition_file_placed
                                 | apply list_file_placed]|] ].


Lemma export_resource_placed (w : World) (t : ResourceType)
    (total index : nat) (resource : pyval) :
  hoare placed (export_resource w t total index resource)
    (fun _ => placed) (fun _ => placed).
Proof.
  intros s H. unfold placed in *.
  unfold_script. unfold py_replace_slash. simpl.
  repeat (split_match; simpl); close_placed H.
Qed.

Lemma export_type_placed (w : World) (t : ResourceType) :
  hoare placed (export_type w t) (fun _ => placed) (fun _ => placed).
Proof.
  unfold export_type.
  eapply hoare_bind with (Q := fun _ => placed).
  { intros s H. unfold placed in *. run_script; close_placed H. }
  intros [response|]; [|apply hoare_ret].
  destruct (dict_truthy response); [|apply hoare_ret].
  eapply hoare_bind with (Q := fun _ => placed).
  { intros s H. unfold placed in *. run_script; close_placed H. }
  intros ?.
  eapply hoare_bind with (Q := fun _ => placed).
  { intros s H. unfold lift. split_match; exact H. }
  intros resources.
  eapply hoare_bind with (Q := fun _ => placed).
  { intros s H. unfold lift. split_match; exact H. }
  intros items. apply hoare_export_resources. intros.
  apply export_resource_placed.
Qed.

Lemma main_placed (w : World) (type_arg : option string) :
  writes_well_placed (trace (final (main w type_arg))).
Proof.
  rewrite main_eq.
  assert (H0 : placed initial) by (intros p d b []).
  pose proof (hoare_export_types w placed (fun _ => placed)
                (export_type_placed w) (resource_types type_arg) initial H0) as H.
  destruct (export_types w (resource_types type_arg) initial) as [a s|e s];
    exact H.
Qed.

(** C5: for an item whose display name is [name] and whose definition was
    fetched, the writer is asked to write
    [definitions/<type>/<sanitized>-<type>.json], where [sanitized] is
    [name] with every ['/'] replaced by ['--']; that file name holds no
    ['/'], and in every run every file is written directly in the directory
    of a resource type, under a name without ['/']. *)
Theorem definition_file_path :
  (forall (w : World) (t : ResourceType) (total index : nat)
          (resource resource_id : pyval) (name : string)
          (definition : dict) (s : State),
      py_getitem resource (json_object_id t) = inr resource_id ->
      py_getitem resource "Name" = inr (PStr name) ->
      aws_describe w (trace s) t resource_id = ApiReturn definition ->
      dict_has "Error" definition = false ->
      dict_truthy definition = true ->
      fs_makedirs w
        (EvDescribe t resource_id (ApiReturn definition) :: trace s)
        (definitions_dir t) <> DirFailed ->
      let sanitized := replace "/" "--" name in
      let filename := (sanitized ++ "-" ++ type_name t ++ ".json")%string in
      exists saved,
        hd_error (trace (final (export_resource w t total index resource s)))
        = Some (EvWrite ("definitions/" ++ type_name t ++ "/" ++ filename)
                  definition saved)
        /\ contains "/" sanitized = false
        /\ contains "/" filename = false)
  /\ (forall (w : World) (type_arg : option string) (path : string)
             (json_data : dict) (saved : bool),
        In (EvWrite path json_data saved) (trace (final (main w type_arg))) ->
        exists t base,
          path = ("definitions/" ++ type_name t ++ "/" ++ base)%string
          /\ contains "/" base = false).
Proof.
  split.
  - intros w t total index resource resource_id name definition s
      Hid Hname Hd He Ht Hdir sanitized filename.
    unfold export_resource. unfold bind at 1. unfold lift at 1. rewrite Hid.
    unfold bind at 1. unfold get_quicksight_resource.
    unfold bind at 1. unfold call_describe at 1. rewrite Hd, He.
    unfold bind at 1. unfold logging at 1. unfold ret at 1. rewrite Ht.
    unfold bind at 1. unfold bind at 1. unfold lift at 1. rewrite Hname.
    unfold bind at 1. unfold lift at 1. cbn [py_replace_slash].
    fold sanitized.
    match goal with
    | |- context [write_json_file w t sanitized "definition" definition ?s1] =>
        destruct (write_json_file_returns w t sanitized "definition" definition
                    s1 _ eq_refl Hdir) as (s2 & -> & _ & Htr)
    end.
    eexists. split; [|split].
    + unfold_script. simpl. rewrite Htr. simpl. destruct t; reflexivity.
    + apply contains_replace. reflexivity.
    + apply definition_name_no_slash.
  - intros w type_arg path json_data saved Hin.
    destruct (main_placed w type_arg path json_data saved Hin)
      as (t & base & -> & Hb).
    exists t, base. split; [|exact Hb].
    destruct t; reflexivity.
Qed.

(** ** Lister failures and falsy payloads *)

Lemma export_types_cons (w : World) (t : ResourceType)
    (rest : list ResourceType) (s s' : State) :
  export_type w t s = Ok tt s' ->
  export_types w (t :: rest) s = export_types w rest s'.
Proof. intros H. simpl. unfold bind. rewrite H. reflexivity. Qed.

(** A type whose only list call raised has nothing listed. *)
Lemma listed_nothing (t : ResourceType) (error : string)
    (history : list Event) :
  list_calls t history <= 1 ->
  In (EvList t (ApiRaise error)) history ->
  listed t history = 0.
Proof.
  induction history as [|e h IH]; simpl; [intros _ []|].
  intros Hc [He|Hin].
  - subst e. rewrite eqb_refl_type in Hc.
    assert (Hh : list_calls t h = 0) by lia. clear - Hh.
    induction h as [|e h IH]; simpl in *; [reflexivity|].
    destruct e as [t' r| | |]; auto.
    destruct (ResourceType_eqb t t'); [simpl in Hh; lia|].
    destruct r; simpl; apply IH; exact Hh.
  - destruct e as [t' r| | |]; auto.
    destruct (ResourceType_eqb t t') eqn:Heq.
    + assert (Hh : list_calls t h = 0) by lia. exfalso. clear - Hh Hin.
      induction h as [|e h IH]; simpl in *; [contradiction|].
      destruct Hin as [->|Hin].
      * rewrite eqb_refl_type in Hh. simpl in Hh. lia.
      * destruct e as [t' r| | |]; auto.
        destruct (ResourceType_eqb t t'); [simpl in Hh; lia|auto].
    + destruct r; simpl; apply IH; simpl in Hc; assumption.
Qed.

(** C4: when the list call for [t] raises, the lister logs and prints the
    error and returns nothing; the driver then leaves [t]: the body of the
    loop ends with the counters as they were and with that single call to
    the outside, so no file is written, and the loop goes on with the next
    type.  At the end of such a run [successes[t]] and [failures[t]] are 0. *)
Theorem list_failure_skips_type :
  (forall (w : World) (t : ResourceType) (rest : list ResourceType)
          (s : State) (error : string),
      aws_list w (trace s) t = ApiRaise error ->
      let s' :=
        {| successes := successes s; failures := failures s;
           log := (ERROR, ListFailed t error) :: log s;
           stdout := ListFailed t error :: stdout s;
           trace := EvList t (ApiRaise error) :: trace s |} in
      list_quicksight_resources w t s = Ok None s'
      /\ export_type w t s = Ok tt s'
      /\ export_types w (t :: rest) s = export_types w rest s')
  /\ (forall (w : World) (type_arg : option string) (t : ResourceType)
             (error : string),
        let s' := final (main w type_arg) in
        In (EvList t (ApiRaise error)) (trace s') ->
        get (successes s') t = 0 /\ get (failures s') t = 0).
Proof.
  split.
  - intros w t rest s error H s'.
    assert (Hl : list_quicksight_resources w t s = Ok None s').
    { rewrite list_quicksight_resources_eq, H. reflexivity. }
    assert (He : export_type w t s = Ok tt s').
    { rewrite export_type_eq, Hl. reflexivity. }
    repeat split; [exact Hl|exact He|apply export_types_cons; exact He].
  - intros w type_arg t error s' Hin.
    pose proof (main_bounded w type_arg t) as Hb.
    pose proof (main_list_calls w type_arg t) as Hc.
    fold s' in Hb, Hc. rewrite (listed_nothing t error _ Hc Hin) in Hb.
    unfold tally in Hb. lia.
Qed.

(** C10: a response that is falsy is handled as an absent one.  When the
    list call returns an empty dict the body of the loop over the types ends
    at once, with no file written and no counter changed, and the loop goes
    on with the next type; when the describe call returns an empty dict the
    fetcher hands it over, the driver writes no file and the item changes no
    counter. *)
Theorem falsy_payloads_are_skipped :
  (forall (w : World) (t : ResourceType) (rest : list ResourceType)
          (s : State) (response : dict),
      aws_list w (trace s) t = ApiReturn response ->
      dict_truthy response = false ->
      let s' :=
        {| successes := successes s; failures := failures s;
           log := (INFO, RetrievedList t) :: log s;
           stdout := RetrievedList t :: stdout s;
           trace := EvList t (ApiReturn response) :: trace s |} in
      export_type w t s = Ok tt s'
      /\ export_types w (t :: rest) s = export_types w rest s')
  /\ (forall (w : World) (t : ResourceType) (total index : nat)
             (resource resource_id : pyval) (definition : dict) (s : State),
        py_getitem resource (json_object_id t) = inr resource_id ->
        aws_describe w (trace s) t resource_id = ApiReturn definition ->
        dict_truthy definition = false ->
        get_quicksight_resource w t resource_id s
        = Ok (Some definition)
            {| successes := successes s; failures := failures s;
               log := (INFO, Retrieved t) :: log s;
               stdout := stdout s;
               trace := EvDescribe t resource_id (ApiReturn definition)
                        :: trace s |}
        /\ export_resource w t total index resource s
           = Ok tt
               {| successes := successes s; failures := failures s;
                  log := (INFO, Retrieved t) :: log s;
                  stdout := CursorUp :: Progress (index + 1) total t
                            :: stdout s;
                  trace := EvDescribe t resource_id (ApiReturn definition)
                           :: trace s |}).
Proof.
  split.
  - intros w t rest s response H Hf s'.
    assert (He : export_type w t s = Ok tt s').
    { rewrite export_type_eq, list_quicksight_resources_eq, H, Hf.
      reflexivity. }
    split; [exact He|apply export_types_cons; exact He].
  - intros w t total index resource resource_id definition s Hid Hd Hf.
    destruct definition; [|discriminate]. split.
    + unfold_script. rewrite Hd. reflexivity.
    + unfold export_resource. unfold bind at 1. unfold lift at 1. rewrite Hid.
      unfold_script. rewrite Hd. reflexivity.
Qed.

(** ** Selection of the types *)


(** C6 as stated does not hold: for [-t ba] the script processes the
    analyses before the dashboards, not in the order of the characters. *)
Lemma caller_order_is_not_kept :
  resource_types (Some "ba") = [analyses; dashboards]
  /\ caller_specified_order "ba" = [dashboards; analyses]
  /\ ~ processed_in_caller_order.
Proof.
  repeat split; try reflexivity.
  intros [_ H]. specialize (H "ba"). discriminate.
Qed.

Lemma char_type_named (c : ascii) (t : ResourceType) :
  char_type c = Some t <-> c = type_char t.
Proof.
  unfold char_type.
  destruct (Ascii.eqb c "d") eqn:Hd; [apply Ascii.eqb_eq in Hd; subst c|].
  { destruct t; simpl; split; congruence. }
  destruct (Ascii.eqb c "a") eqn:Ha; [apply Ascii.eqb_eq in Ha; subst c|].
  { destruct t; simpl; split; congruence. }
  destruct (Ascii.eqb c "b") eqn:Hb; [apply Ascii.eqb_eq in Hb; subst c|].
  { destruct t; simpl; split; congruence. }
  split; [discriminate|].
  intros ->. destruct t; simpl in *; discriminate.
Qed.

(** The types the caller named are those whose character is in the string. *)
Lemma named_by_caller (s : string) (t : ResourceType) :
  existsb (ResourceType_eqb t) (caller_specified_order s)
  = contains (type_char t) s.
Proof.
  induction s as [|c r IH]; simpl; [reflexivity|].
  destruct (Ascii.eqb c (type_char t)) eqn:Hc.
  - apply Ascii.eqb_eq in Hc.
    apply char_type_named in Hc. rewrite Hc. simpl.
    rewrite eqb_refl_type. reflexivity.
  - destruct (char_type c) as [t'|] eqn:Ht; [|exact IH].
    simpl. rewrite IH.
    destruct (ResourceType_eqb t t') eqn:Heq; [|reflexivity].
    apply eqb_eq_type in Heq. subst t'.
    apply char_type_named in Ht. subst c.
    rewrite Ascii.eqb_refl in Hc. discriminate.
Qed.

Lemma resource_types_filter (c : ascii) (r : string) :
  resource_types (Some (String c r))
  = filter (fun t => contains (type_char t) (String c r))
      [data_sets; analyses; dashboards].
Proof.
  unfold resource_types, filter, type_char.
  destruct (contains "d" (String c r)), (contains "a" (String c r)),
    (contains "b" (String c r)); reflexivity.
Qed.

(** C6, amended: without [-t] the three types are processed in the order
    data sets, analyses, dashboards; with a [-t] that is not empty the types
    processed are those the characters ['d'], ['a'] and ['b'] of its value
    name, taken in that same fixed order, whatever the order of the
    characters. *)
Theorem selection_in_fixed_order :
  resource_types None = [data_sets; analyses; dashboards]
  /\ forall (c : ascii) (r : string),
       resource_types (Some (String c r))
       = filter
           (fun t => existsb (ResourceType_eqb t)
                       (caller_specified_order (String c r)))
           [data_sets; analyses; dashboards].
Proof.
  split; [reflexivity|]. intros c r.
  rewrite resource_types_filter.
  apply filter_ext. intros t. symmetry. apply named_by_caller.
Qed.

Lemma resource_types_sorted (s : string) :
  StronglySorted (fun a b => rank a < rank b) (resource_types (Some s)).
Proof.
  destruct s as [|c r].
  - simpl. repeat constructor.
  - unfold resource_types.
    destruct (contains "d" (String c r)), (contains "a" (String c r)),
      (contains "b" (String c r)); simpl; repeat constructor.
Qed.

Lemma resource_types_nodup (s : string) : NoDup (resource_types (Some s)).
Proof.
  destruct s as [|c r].
  - simpl. repeat constructor; simpl; intuition discriminate.
  - unfold resource_types.
    destruct (contains "d" (String c r)), (contains "a" (String c r)),
      (contains "b" (String c r)); simpl;
      repeat constructor; simpl; intuition discriminate.
Qed.

(** C9: a [-t] that is not empty selects exactly the types whose character
    it holds; whatever its value, each selected type appears once and the
    types come in the order data sets, analyses, dashboards, so two values
    that hold the same characters among ['d'], ['a'], ['b'] select the same
    list; the empty value selects all three types, as no [-t] does; a value
    that is not empty and holds none of the three characters selects no
    type, and the run then only logs and prints a summary of zeros before it
    exits. *)
Theorem type_selection :
  (forall (c : ascii) (r : string) (t : ResourceType),
      In t (resource_types (Some (String c r)))
      <-> contains (type_char t) (String c r) = true)
  /\ (forall s : string,
        NoDup (resource_types (Some s))
        /\ StronglySorted (fun a b => rank a < rank b)
             (resource_types (Some s)))
  /\ (forall s1 s2 : string,
        s1 <> "" -> s2 <> "" ->
        (forall t, contains (type_char t) s1 = contains (type_char t) s2) ->
        resource_types (Some s1) = resource_types (Some s2))
  /\ resource_types (Some "") = resource_types None
  /\ resource_types None = [data_sets; analyses; dashboards]
  /\ (forall (w : World) (c : ascii) (r : string),
        (forall t, contains (type_char t) (String c r) = false) ->
        resource_types (Some (String c r)) = []
        /\ main w (Some (String c r))
           = Raise (SystemExit None)
               {| successes := zero; failures := zero;
                  log := [(INFO, Summary zero zero)];
                  stdout := [Summary zero zero];
                  trace := [] |}).
Proof.
  split; [|split; [|split; [|split; [|split]]]].
  - intros c r t. rewrite resource_types_filter, filter_In.
    split; [intros [_ H]; exact H|].
    intros H. split; [destruct t; simpl; auto|exact H].
  - intros s. split; [apply resource_types_nodup|apply resource_types_sorted].
  - intros s1 s2 H1 H2 H.
    destruct s1 as [|c1 r1]; [congruence|].
    destruct s2 as [|c2 r2]; [congruence|].
    rewrite !resource_types_filter. apply filter_ext. exact H.
  - reflexivity.
  - reflexivity.
  - intros w c r H.
    assert (Hn : resource_types (Some (String c r)) = []).
    { pose proof (H data_sets) as Hd. pose proof (H analyses) as Ha.
      pose proof (H dashboards) as Hb. unfold type_char in Hd, Ha, Hb.
      unfold resource_types. rewrite Hd, Ha, Hb. reflexivity. }
    split; [exact Hn|]. unfold main. rewrite Hn. reflexivity.
Qed.

(** ** The embedded error *)

(** C1, on the code: in a run over three dashboards where the describe call
    for the second one returns an embedded error, the error is logged and no
    file is written for that dashboard, but no failure is counted: the run
    ends with [failures['dashboards'] == 0] and
    [successes['dashboards'] == 2]. *)
Theorem embedded_error_is_not_counted :
  let s := final (main three_dashboards (Some "b")) in
  get (failures s) dashboards = 0
  /\ get (successes s) dashboards = 2
  /\ listed dashboards (trace s) = 3
  /\ In (ERROR, EmbeddedError dashboards (PStr "d2")
                  (PStr "AccessDenied") (PStr "denied")) (log s)
  /\ existsb (written_to "definitions/dashboards/Beta-dashboards.json")
       (trace s) = false.
Proof.
  vm_compute. repeat split; auto 10.
Qed.

(** ** Payloads outside the data model *)


(** ** The properties at work on the example worlds *)

(** The describe call for the first analysis raises: one failure, no write. *)
Lemma one_outcome_per_item_witness :
  let s' :=
    final (export_resource unreachable_definitions analyses 2 0
             (summary analyses "a1" "Costs") initial) in
  failures s' = incr (failures initial) analyses
  /\ successes s' = successes initial
  /\ trace s' =
     EvDescribe analyses (PStr "a1") (ApiRaise "ThrottlingException")
     :: trace initial.
Proof.
  exact (proj1 (proj2 one_outcome_per_item) unreachable_definitions analyses
           2 0 (summary analyses "a1" "Costs") (PStr "a1")
           "ThrottlingException" initial eq_refl eq_refl).
Defined.

(** On a disk that accepts no directory the run ends at the first save. *)
Lemma directory_failure_witness :
  existsb dir_failed (trace (final (main read_only_disk None))) = true
  /\ exists s,
       main read_only_disk None = Raise (SystemExit None) s /\ aborted s.
Proof.
  split; [reflexivity|].
  exact (proj2 directory_failure_ends_run_with_summary read_only_disk None
           eq_refl).
Defined.

(** The list call for the analyses raises: the loop goes on with the
    dashboards. *)
Lemma list_failure_witness :
  let s' :=
    {| successes := zero; failures := zero;
       log := [(ERROR, ListFailed analyses "EndpointConnectionError")];
       stdout := [ListFailed analyses "EndpointConnectionError"];
       trace := [EvList analyses (ApiRaise "EndpointConnectionError")] |} in
  list_quicksight_resources two_data_sets analyses initial = Ok None s'
  /\ export_type two_data_sets analyses initial = Ok tt s'
  /\ export_types two_data_sets [analyses; dashboards] initial
     = export_types two_data_sets [dashboards] s'.
Proof.
  exact (proj1 list_failure_skips_type two_data_sets analyses [dashboards]
           initial "EndpointConnectionError" eq_refl).
Defined.

(** The data set named [Sales/Q1] goes to [Sales--Q1-data_sets.json]. *)
Lemma definition_file_path_witness :
  exists saved,
    hd_error
      (trace (final (export_resource two_data_sets data_sets 2 0
                       (summary data_sets "s1" "Sales/Q1") initial)))
    = Some (EvWrite "definitions/data_sets/Sales--Q1-data_sets.json"
              (definition_of (PStr "s1")) saved)
    /\ contains "/" "Sales--Q1" = false
    /\ contains "/" "Sales--Q1-data_sets.json" = false.
Proof.
  refine (proj1 definition_file_path two_data_sets data_sets 2 0
            (summary data_sets "s1" "Sales/Q1") (PStr "s1") "Sales/Q1"
            (definition_of (PStr "s1")) initial
            eq_refl eq_refl eq_refl eq_refl eq_refl _).
  discriminate.
Defined.

(** A definition that the disk refuses counts as one failure. *)
Lemma writer_counter_effect_witness :
  exists s',
    write_json_file two_data_sets data_sets "Sales-Q2" "definition"
      (definition_of (PStr "s2")) initial = Ok tt s'
    /\ successes s' = successes initial
    /\ get (failures s') data_sets = S (get (failures initial) data_sets)
    /\ (forall t', t' <> data_sets ->
          get (failures s') t' = get (failures initial) t')
    /\ hd_error (log s') = Some (ERROR, SaveFailed "Sales-Q2" data_sets).
Proof.
  destruct (proj1 writer_counter_effect two_data_sets data_sets "Sales-Q2"
              "definition" (definition_of (PStr "s2")) initial DirCreated
              false eq_refl) as (s' & Hrun & _ & Hfail & _).
  - discriminate.
  - reflexivity.
  - exists s'. split; [exact Hrun|]. apply Hfail; reflexivity.
Defined.

Lemma three_dashboards_clients_built : clients_built three_dashboards.
Proof.
  split.
  - intros history t error. destruct t; discriminate.
  - intros history t resource_id error. simpl.
    destruct (is_str "d2" resource_id); discriminate.
Defined.

Lemma three_dashboards_well_shaped : well_shaped three_dashboards.
Proof.
  split.
  - intros history t response H. destruct t; injection H as <-; reflexivity.
  - intros history t resource_id response H. simpl in H.
    destruct (is_str "d2" resource_id); injection H as <-; reflexivity.
Defined.


(** [-t xyz] selects nothing. *)
Lemma type_selection_witness :
  resource_types (Some "xyz") = []
  /\ main two_data_sets (Some "xyz")
     = Raise (SystemExit None)
         {| successes := zero; failures := zero;
            log := [(INFO, Summary zero zero)];
            stdout := [Summary zero zero];
            trace := [] |}.
Proof.
  refine (proj2 (proj2 (proj2 (proj2 (proj2 type_selection))))
            two_data_sets "x"%char "yz" _).
  intros t. destruct t; reflexivity.
Defined.

(** The list call for the dashboards returns an empty dict; so does the
    describe call for the first analysis. *)
Lemma falsy_payloads_witness :
  (let s' :=
     {| successes := zero; failures := zero;
        log := [(INFO, RetrievedList dashboards)];
        stdout := [RetrievedList dashboards];
        trace := [EvList dashboards (ApiReturn [])] |} in
   export_type two_data_sets dashboards initial = Ok tt s'
   /\ export_types two_data_sets [dashboards] initial
      = export_types two_data_sets [] s')
  /\ export_resource empty_definitions analyses 2 0
       (summary analyses "a1" "Costs") initial
     = Ok tt
         {| successes := zero; failures := zero;
            log := [(INFO, Retrieved analyses)];
            stdout := [CursorUp; Progress 1 2 analyses];
            trace := [EvDescribe analyses (PStr "a1") (ApiReturn [])] |}.
Proof.
  split.
  - exact (proj1 falsy_payloads_are_skipped two_data_sets dashboards []
             initial [] eq_refl eq_refl).
  - exact (proj2 (proj2 falsy_payloads_are_skipped empty_definitions analyses
                    2 0 (summary analyses "a1" "Costs") (PStr "a1") []
                    initial eq_refl eq_refl eq_refl)).
Defined.

(** * Further properties of the script *)

(** ** The counters and the history *)

Ltac close_accounted H :=
  let t' := fresh "t'" in
  intros t'; destruct (H t') as [? ?]; simpl;
  rewrite ?tally_cases;
  repeat match goal with
         | |- context [ResourceType_eqb ?a ?b] =>
             destruct (ResourceType_eqb a b) eqn:?
         end;
  simpl; split; try lia;
  repeat match goal with
         | E : ResourceType_eqb _ _ = true |- _ => apply eqb_eq_type in E; subst
         end;
  try rewrite eqb_refl_type in *; try discriminate; try lia.

Lemma export_resource_accounted (w : World) (t : ResourceType)
    (total index : nat) (resource : pyval) :
  hoare accounted (export_resource w t total index resource)
    (fun _ => accounted) (fun _ => accounted).
Proof.
  intros s H. unfold accounted in *.
  run_script; close_accounted H.
Qed.

(** The body of the loop over the types keeps what the lister followed by
    the save of the list keeps and what the body of the inner loop keeps,
    provided the exceptions of the indexing steps are allowed. *)
Lemma hoare_export_type (w : World) (t : ResourceType) (I : State -> Prop)
    (E : pyexn -> State -> Prop) :
  (forall s, I s ->
     match list_quicksight_resources w t s with
     | Ok (Some response) s1 =>
         if dict_truthy response then
           match write_json_file w t "" "list" response s1 with
           | Ok _ s2 => I s2
           | Raise e s2 => E e s2
           end
         else I s1
     | Ok None s1 => I s1
     | Raise e s1 => E e s1
     end) ->
  (forall e s, I s -> exit_status e = 1%Z -> E e s) ->
  (forall total index resource,
      hoare I (export_resource w t total index resource) (fun _ => I) E) ->
  hoare I (export_type w t) (fun _ => I) E.
Proof.
  intros Hlist Hexn Hitem s Hs. rewrite export_type_eq.
  specialize (Hlist s Hs).
  destruct (list_quicksight_resources w t s) as [[response|] s1|e s1];
    try exact Hlist.
  destruct (dict_truthy response); [|exact Hlist].
  destruct (write_json_file w t "" "list" response s1) as [a s2|e s2];
    [|exact Hlist].
  destruct (py_getitem (PDict response) (json_object_name t)) as [e|resources]
    eqn:Hget.
  { apply Hexn; [exact Hlist|].
    simpl in Hget. destruct (dict_get (json_object_name t) response);
      [discriminate|]. injection Hget as <-. reflexivity. }
  destruct (py_iter resources) as [e|items] eqn:Hiter.
  { apply Hexn; [exact Hlist|].
    destruct resources; simpl in Hiter; try discriminate;
      injection Hiter as <-; reflexivity. }
  apply (hoare_export_resources w t (length items) I E (Hitem (length items))
           items 0 s2 Hlist).
Qed.

Lemma export_type_accounted (w : World) (t : ResourceType) :
  hoare accounted (export_type w t) (fun _ => accounted) (fun _ => accounted).
Proof.
  apply hoare_export_type.
  - intros s H. rewrite list_quicksight_resources_eq. unfold accounted in *.
    destruct (aws_list w (trace s) t) as [response|error|error];
      [destruct (dict_truthy response)| |];
      try (run_script; close_accounted H).
  - intros e s H _. exact H.
  - intros. apply export_resource_accounted.
Qed.

Lemma main_accounted (w : World) (type_arg : option string) :
  accounted (final (main w type_arg)).
Proof.
  rewrite main_eq.
  assert (H0 : accounted initial)
    by (intros t; destruct t; split; reflexivity).
  pose proof (hoare_export_types w accounted (fun _ => accounted)
                (export_type_accounted w) (resource_types type_arg)
                initial H0) as H.
  destruct (export_types w (resource_types type_arg) initial) as [a s|e s];
    exact H.
Qed.


(** ** Every listed item is fetched *)

Lemma export_resource_pending (w : World) (t : ResourceType)
    (total index : nat) (resource : pyval) (n : nat) :
  hoare (pending (S n) t) (export_resource w t total index resource)
    (fun _ => pending n t) (fun _ _ => True).
Proof.
  intros s H. unfold pending in *.
  run_script; try exact I;
    intros t'; specialize (H t'); simpl;
    destruct (ResourceType_eqb t' t); lia.
Qed.

Lemma export_resources_pending (w : World) (t : ResourceType) (total : nat)
    (resources : list pyval) :
  forall index,
    hoare (pending (length resources) t)
      (export_resources w t total index resources)
      (fun _ => pending 0 t) (fun _ _ => True).
Proof.
  induction resources as [|r rest IH]; intros index; simpl.
  - intros s Hs. exact Hs.
  - eapply hoare_bind; [apply export_resource_pending|intros ?; apply IH].
Qed.

Lemma export_type_fetches (w : World) (t : ResourceType) :
  hoare all_fetched (export_type w t) (fun _ => all_fetched) (fun _ _ => True).
Proof.
  intros s Hs. rewrite export_type_eq, list_quicksight_resources_eq.
  unfold all_fetched in *.
  destruct (aws_list w (trace s) t) as [response|error|error] eqn:Hl.
  2: { intros t'. simpl. apply Hs. }
  2: exact I.
  destruct (dict_truthy response) eqn:Htruthy.
  2: { destruct response; [|discriminate]. intros t'. simpl.
       rewrite Hs. destruct (ResourceType_eqb t' t); reflexivity. }
  match goal with
  | |- context [write_json_file w t "" "list" response ?s1] =>
      assert (Hw : match write_json_file w t "" "list" response s1 with
                   | Ok _ s2 =>
                       forall t', describes t' (trace s2) = describes t' (trace s)
                                  /\ listed t' (trace s2) = listed t' (trace s1)
                   | Raise _ _ => True
                   end)
        by (run_script; try exact I; intros t'; split; reflexivity);
      destruct (write_json_file w t "" "list" response s1) as [a s2|e s2]
  end; [|exact I].
  destruct (py_getitem (PDict response) (json_object_name t))
    as [e|resources] eqn:Hget; [exact I|].
  destruct (py_iter resources) as [e|items] eqn:Hiter; [exact I|].
  assert (Hp : pending (length items) t s2).
  { intros t'. destruct (Hw t') as [Hd Hli]. rewrite Hd, Hli.
    cbn [listed trace]. rewrite Hs.
    destruct (ResourceType_eqb t' t) eqn:Heq; [|lia].
    apply eqb_eq_type in Heq. subst t'.
    rewrite (items_of_length t response _ _ Hget Hiter). lia. }
  pose proof (export_resources_pending w t (length items) items 0 s2 Hp) as H.
  destruct (export_resources w t (length items) 0 items s2); [|exact I].
  intros t'. specialize (H t'). destruct (ResourceType_eqb t' t); lia.
Qed.

(** ** How a run ends *)

Ltac close_left Hl Ho Hd :=
  first
    [ exact I
    | repeat split; assumption
    | right; split; [reflexivity|repeat split; assumption]
    | left; split; [reflexivity|];
      do 4 eexists; repeat split; exact Hd ].

Lemma export_resource_left (w : World) (t : ResourceType)
    (total index : nat) (resource : pyval) :
  hoare unfinished (export_resource w t total index resource)
    (fun _ => unfinished) left_by.
Proof.
  intros s (Hl & Ho & Hd).
  unfold left_by, unfinished, aborted, no_dir_failure in *.
  unfold_script. unfold py_getitem, py_replace_slash. simpl.
  repeat (split_match; simpl); close_left Hl Ho Hd.
Qed.

Lemma export_type_left (w : World) (t : ResourceType) :
  hoare unfinished (export_type w t) (fun _ => unfinished) left_by.
Proof.
  apply hoare_export_type.
  - intros s (Hl & Ho & Hd). rewrite list_quicksight_resources_eq.
    unfold left_by, unfinished, aborted, no_dir_failure in *.
    destruct (aws_list w (trace s) t) as [response|error|error];
      [destruct (dict_truthy response)| |];
      try (run_script; close_left Hl Ho Hd).
  - intros e s H He. right. split; assumption.
  - intros. apply export_resource_left.
Qed.

Lemma export_types_left (w : World) (types : list ResourceType) :
  match export_types w types initial with
  | Ok _ s => unfinished s
  | Raise e s => left_by e s
  end.
Proof.
  apply (hoare_export_types w unfinished left_by (export_type_left w)).
  repeat split.
Qed.

Lemma aborted_dir_failure (s : State) :
  aborted s -> existsb dir_failed (trace s) = true.
Proof. intros (p & h & r & l & -> & _). reflexivity. Qed.

Lemma main_fetched
    (w : World) (type_arg : option string) (s : State) (t : ResourceType) :
  main w type_arg = Raise (SystemExit None) s ->
  no_dir_failure s ->
  describes t (trace s) = listed t (trace s).
Proof.
  rewrite main_eq. intros Hrun Hclean.
  assert (H0 : all_fetched initial) by (intros t'; reflexivity).
  pose proof (hoare_export_types w all_fetched (fun _ _ => True)
                (export_type_fetches w) (resource_types type_arg)
                initial H0) as Hf.
  pose proof (export_types_left w (resource_types type_arg)) as Hleft.
  destruct (export_types w (resource_types type_arg) initial) as [a s1|e s1].
  - rewrite finish_export_eq in Hrun. injection Hrun as <-. apply Hf.
  - injection Hrun as -> ->. destruct Hleft as [[_ Ha]|[He _]].
    + apply aborted_dir_failure in Ha. unfold no_dir_failure in Hclean.
      congruence.
    + discriminate He.
Qed.

(** X2: in a run that reaches the end of the loop over the types, that is,
    a run closed by [finish_export] without any failed directory creation,
    the number of describe calls made for a type is the number of items
    listed for it: every listed item is fetched, once. *)
Theorem every_listed_item_is_fetched
    (w : World) (type_arg : option string) (s : State) (t : ResourceType) :
  main w type_arg = Raise (SystemExit None) s ->
  no_dir_failure s ->
  describes t (trace s) = listed t (trace s).
Proof. apply main_fetched. Qed.


(** ** Order of the calls and of the lines *)

(** An item that is processed to its end: one describe call, made with the
    identifier of the item, and the two lines of progress. *)
Lemma export_resource_ok (w : World) (t : ResourceType)
    (total index : nat) (resource : pyval) (s : State) :
  match export_resource w t total index resource s with
  | Ok _ s' =>
      exists resource_id,
        py_getitem resource (json_object_id t) = inr resource_id
        /\ described (trace s') = (t, resource_id) :: described (trace s)
        /\ stdout s' = CursorUp :: Progress (index + 1) total t :: stdout s
  | Raise _ _ => True
  end.
Proof.
  run_script; try exact I; eexists; repeat split; reflexivity.
Qed.

Lemma export_resources_ok (w : World) (t : ResourceType) (total : nat)
    (resources : list pyval) :
  forall (index : nat) (s s' : State),
    export_resources w t total index resources s = Ok tt s' ->
    exists ids,
      Forall2 (fun resource resource_id =>
                 py_getitem resource (json_object_id t) = inr resource_id)
        resources ids
      /\ described (trace s') = rev (map (pair t) ids) ++ described (trace s)
      /\ stdout s'
         = rev (progress_lines t total index (length resources)) ++ stdout s.
Proof.
  induction resources as [|r rest IH]; intros index s s' Hrun; simpl in Hrun.
  - injection Hrun as <-. exists []. repeat split. constructor.
  - unfold bind in Hrun.
    pose proof (export_resource_ok w t total index r s) as Hitem.
    destruct (export_resource w t total index r s) as [a s1|e s1];
      [|discriminate].
    destruct Hitem as (resource_id & Hid & Hd & Ho).
    destruct (IH (S index) s1 s' Hrun) as (ids & Hids & Hd' & Ho').
    exists (resource_id :: ids). split; [constructor; assumption|]. split.
    + rewrite Hd', Hd. simpl. rewrite <- app_assoc. reflexivity.
    + rewrite Ho', Ho. unfold progress_lines. simpl.
      rewrite <- !app_assoc. reflexivity.
Qed.

(** X4: when the loop over the listed resources runs to its end, the
    describe calls it made are those of the identifiers of the resources,
    one per resource and in the order of the list. *)
Theorem describe_calls_follow_the_list
    (w : World) (t : ResourceType) (total index : nat)
    (resources : list pyval) (s s' : State) :
  export_resources w t total index resources s = Ok tt s' ->
  exists ids,
    Forall2 (fun resource resource_id =>
               py_getitem resource (json_object_id t) = inr resource_id)
      resources ids
    /\ rev (described (trace s'))
       = rev (described (trace s)) ++ map (pair t) ids.
Proof.
  intros Hrun.
  destruct (export_resources_ok w t total resources index s s' Hrun)
    as (ids & Hids & Hd & _).
  exists ids. split; [exact Hids|].
  rewrite Hd, rev_app_distr, rev_involutive. reflexivity.
Qed.

(** X5: when the loop over the listed resources runs to its end, it has
    printed, for each resource in turn, the line [Saved i of total] and the
    cursor move, and nothing else, whether the resource was saved or not. *)
Theorem progress_counts_every_item
    (w : World) (t : ResourceType) (total index : nat)
    (resources : list pyval) (s s' : State) :
  export_resources w t total index resources s = Ok tt s' ->
  rev (stdout s')
  = rev (stdout s) ++ progress_lines t total index (length resources).
Proof.
  intros Hrun.
  destruct (export_resources_ok w t total resources index s s' Hrun)
    as (ids & _ & _ & Ho).
  rewrite Ho, rev_app_distr, rev_involutive. reflexivity.
Qed.

(** The list calls: one per type, in the order of the loop. *)
Lemma export_resources_listed_types (w : World) (t : ResourceType)
    (total : nat) (resources : list pyval) :
  forall index s,
    listed_types (trace (final (export_resources w t total index resources s)))
    = listed_types (trace s).
Proof.
  induction resources as [|r rest IH]; intros index s; simpl; [reflexivity|].
  rewrite bind_final.
  assert (Hitem : listed_types
                    (trace (final (export_resource w t total index r s)))
                  = listed_types (trace s))
    by (run_script; reflexivity).
  destruct (export_resource w t total index r s) as [a s1|e s1];
    simpl in Hitem; [rewrite IH|]; exact Hitem.
Qed.

Lemma export_type_listed_types (w : World) (t : ResourceType) (s : State) :
  listed_types (trace (final (export_type w t s)))
  = t :: listed_types (trace s).
Proof.
  rewrite export_type_eq, list_quicksight_resources_eq.
  destruct (aws_list w (trace s) t) as [response|error|error];
    [|reflexivity|reflexivity].
  destruct (dict_truthy response); [|reflexivity].
  match goal with
  | |- context [write_json_file w t "" "list" response ?s1] =>
      assert (Hw : listed_types
                     (trace (final (write_json_file w t "" "list" response s1)))
                   = t :: listed_types (trace s))
        by (run_script; reflexivity);
      destruct (write_json_file w t "" "list" response s1) as [a s2|e s2]
  end; simpl in Hw; [|exact Hw].
  destruct (py_getitem (PDict response) (json_object_name t)); [exact Hw|].
  destruct (py_iter p); [exact Hw|].
  rewrite export_resources_listed_types. exact Hw.
Qed.

Lemma export_types_listed_types (w : World) (types : list ResourceType) :
  forall s,
    exists done rest,
      types = done ++ rest
      /\ listed_types (trace (final (export_types w types s)))
         = rev done ++ listed_types (trace s)
      /\ (forall s', export_types w types s = Ok tt s' -> rest = []).
Proof.
  induction types as [|t types IH]; intros s; simpl.
  - exists [], []. repeat split.
  - unfold bind. pose proof (export_type_listed_types w t s) as Ht.
    destruct (export_type w t s) as [a s1|e s1]; simpl in Ht.
    + destruct (IH s1) as (done & rest & -> & Hl & Hok).
      exists (t :: done), rest. split; [reflexivity|]. split.
      * rewrite Hl, Ht. simpl. rewrite <- app_assoc. reflexivity.
      * exact Hok.
    + exists [t], types. split; [reflexivity|]. split; [exact Ht|].
      intros s' H. discriminate H.
Qed.

(** X6: in a run the lister is run for the types of [resource_types],
    once per type and in that order, up to the type where the run ended; in
    a run closed by [finish_export] without any failed directory creation
    it was run for every selected type. *)
Theorem list_calls_follow_the_selection
    (w : World) (type_arg : option string) :
  let s := final (main w type_arg) in
  (exists rest,
      resource_types type_arg = rev (listed_types (trace s)) ++ rest)
  /\ (main w type_arg = Raise (SystemExit None) s -> no_dir_failure s ->
      rev (listed_types (trace s)) = resource_types type_arg).
Proof.
  intros s. subst s. rewrite main_eq.
  destruct (export_types_listed_types w (resource_types type_arg) initial)
    as (done & rest & Hsplit & Hl & Hok).
  pose proof (export_types_left w (resource_types type_arg)) as Hleft.
  destruct (export_types w (resource_types type_arg) initial) as [[] s1|e s1];
    simpl in Hl.
  - rewrite finish_export_eq. simpl. rewrite Hl, app_nil_r, rev_involutive.
    split; [exists rest; exact Hsplit|].
    intros _ _. rewrite Hsplit, (Hok s1 eq_refl), app_nil_r. reflexivity.
  - simpl. rewrite Hl, app_nil_r, rev_involutive.
    split; [exists rest; exact Hsplit|].
    intros Hrun Hclean. injection Hrun as ->.
    destruct Hleft as [[_ Ha]|[He _]]; [|discriminate He].
    apply aborted_dir_failure in Ha. unfold no_dir_failure in Hclean.
    congruence.
Qed.

(** ** What is written *)

Lemma starts_with_append (p s : string) : starts_with p (p ++ s) = true.
Proof.
  induction p as [|a p IH]; simpl; [reflexivity|].
  rewrite Ascii.eqb_refl. exact IH.
Qed.

Lemma starts_with_filename (t : ResourceType) (name file_type : string) :
  starts_with (definitions_dir t)
    (build_filename (definitions_dir t) t name file_type) = true.
Proof.
  unfold build_filename.
  destruct (String.eqb file_type "list");
    [|destruct (String.eqb file_type "definition")];
    apply starts_with_append.
Qed.

Ltac close_verbatim H :=
  simpl; repeat split;
  first [ exact H | assumption | discriminate | reflexivity
        | apply starts_with_filename | apply starts_with_append ].

Lemma export_resource_verbatim (w : World) (t : ResourceType)
    (total index : nat) (resource : pyval) :
  hoare writes_verbatim (export_resource w t total index resource)
    (fun _ => writes_verbatim) (fun _ => writes_verbatim).
Proof.
  intros s H. unfold writes_verbatim in *.
  run_script; close_verbatim H.
Qed.

Lemma export_type_verbatim (w : World) (t : ResourceType) :
  hoare writes_verbatim (export_type w t)
    (fun _ => writes_verbatim) (fun _ => writes_verbatim).
Proof.
  apply hoare_export_type.
  - intros s H. rewrite list_quicksight_resources_eq.
    unfold writes_verbatim in *.
    destruct (aws_list w (trace s) t) as [response|error|error];
      [destruct (dict_truthy response) eqn:Htruthy| |];
      try (run_script; close_verbatim H).
  - intros e s H _. exact H.
  - intros. apply export_resource_verbatim.
Qed.

Lemma main_verbatim (w : World) (type_arg : option string) :
  verbatim (trace (final (main w type_arg))).
Proof.
  rewrite main_eq.
  assert (H0 : writes_verbatim initial) by exact I.
  pose proof (hoare_export_types w writes_verbatim (fun _ => writes_verbatim)
                (export_type_verbatim w) (resource_types type_arg)
                initial H0) as H.
  destruct (export_types w (resource_types type_arg) initial) as [a s|e s];
    exact H.
Qed.

Lemma verbatim_older (newer older : list Event) :
  verbatim (newer ++ older) -> verbatim older.
Proof.
  induction newer as [|e newer IH]; simpl; [tauto|].
  destruct e; try exact IH. intros [_ H]. exact (IH H).
Qed.

(** X7: in every run, every write comes right after a directory check that
    did not fail, goes to a file of the directory of a type, and writes,
    unchanged, the non-empty response of the call made just before: either
    the response of a describe call for that type, which then holds no
    error object, or the response of the list call for that type, which
    then goes to the list file of the type. *)
Theorem files_hold_the_responses
    (w : World) (type_arg : option string) (newer older : list Event)
    (path : string) (json_data : dict) (saved : bool) :
  trace (final (main w type_arg))
  = newer ++ EvWrite path json_data saved :: older ->
  exists t o call rest,
    older = EvMakedirs (definitions_dir t) o :: call :: rest
    /\ o <> DirFailed
    /\ starts_with (definitions_dir t) path = true
    /\ dict_truthy json_data = true
    /\ ((exists resource_id,
            call = EvDescribe t resource_id (ApiReturn json_data)
            /\ dict_has "Error" json_data = false)
        \/ (call = EvList t (ApiReturn json_data)
            /\ path = build_filename (definitions_dir t) t "" "list")).
Proof.
  intros Htrace. pose proof (main_verbatim w type_arg) as H.
  rewrite Htrace in H. apply verbatim_older in H. simpl in H.
  destruct H as [H _].
  destruct older as [|[| |filepath o|] [|[t r|t resource_id r| |] rest]];
    try contradiction.
  - destruct H as (Ho & -> & -> & Ht & ->).
    exists t, o, (EvList t (ApiReturn json_data)), rest.
    repeat split; try assumption; [apply starts_with_filename|].
    right. split; reflexivity.
  - destruct H as (Ho & -> & -> & He & Ht & Hp).
    exists t, o, (EvDescribe t resource_id (ApiReturn json_data)), rest.
    repeat split; try assumption.
    left. exists resource_id. split; [reflexivity|exact He].
Qed.

(** ** Names of the files *)

Lemma append_assoc (a b c : string) : ((a ++ b) ++ c = a ++ b ++ c)%string.
Proof. induction a as [|x a IH]; simpl; [reflexivity|f_equal; exact IH]. Qed.

Lemma replace_append (old : ascii) (new a b : string) :
  replace old new (a ++ b) = (replace old new a ++ replace old new b)%string.
Proof.
  induction a as [|x a IH]; simpl; [reflexivity|].
  destruct (Ascii.eqb x old); rewrite IH; [|reflexivity].
  symmetry. apply append_assoc.
Qed.

(** X8: a display name without ['/'] is used as it is: the definition goes
    to [definitions/<type>/<name>-<type>.json]. *)
Theorem plain_names_are_kept (t : ResourceType) (name : string) :
  contains "/" name = false ->
  replace "/" "--" name = name
  /\ build_filename (definitions_dir t) t (replace "/" "--" name) "definition"
     = ("definitions/" ++ type_name t ++ "/" ++ name ++ "-" ++ type_name t
        ++ ".json")%string.
Proof.
  intros H.
  assert (Hr : replace "/" "--" name = name).
  { induction name as [|x name IH]; simpl in *; [reflexivity|].
    destruct (Ascii.eqb x "/"); [discriminate|]. f_equal. exact (IH H). }
  split; [exact Hr|]. rewrite Hr. destruct t; reflexivity.
Qed.

(** X9: the replacement of ['/'] does not keep names apart: for all [a] and
    [b] the distinct display names [a/b] and [a--b] lead to the same
    definition file. *)
Theorem sanitized_names_can_collide (t : ResourceType) (a b : string) :
  (a ++ "/" ++ b <> a ++ "--" ++ b)%string
  /\ build_filename (definitions_dir t) t
       (replace "/" "--" (a ++ "/" ++ b)) "definition"
     = build_filename (definitions_dir t) t
         (replace "/" "--" (a ++ "--" ++ b)) "definition".
Proof.
  split.
  - induction a as [|x a IH]; simpl; [discriminate|].
    intros H. injection H as H. exact (IH H).
  - f_equal. rewrite !replace_append. reflexivity.
Qed.

Lemma append_cancel (p a b : string) : (p ++ a = p ++ b)%string -> a = b.
Proof.
  induction p as [|x p IH]; simpl; [tauto|].
  intros H. injection H as H. exact (IH H).
Qed.

Ltac exhaust H name :=
  repeat (destruct name as [|? name]; simpl in H;
          [discriminate H|]; try discriminate H;
          injection H; clear H; intros H _).

(** X10: files do not overwrite one another across kinds or types: the
    definition file of a resource is never the list file of its type,
    whatever the name of the resource, and two files of different types
    never have the same path. *)
Theorem kinds_and_types_do_not_collide :
  (forall (t : ResourceType) (name name' : string),
      build_filename (definitions_dir t) t name "definition"
      <> build_filename (definitions_dir t) t name' "list")
  /\ (forall (t t' : ResourceType) (name name' file_type file_type' : string),
        t <> t' ->
        build_filename (definitions_dir t) t name file_type
        <> build_filename (definitions_dir t') t' name' file_type').
Proof.
  split.
  - intros t name name' H.
    change (definitions_dir t ++ name ++ "-" ++ type_name t ++ ".json"
            = definitions_dir t ++ type_name t ++ "-list.json")%string in H.
    apply append_cancel in H. destruct t; simpl in H; exhaust H name.
  - intros t t' name name' file_type file_type' Hne H.
    unfold build_filename in H.
    destruct (String.eqb file_type "list");
      [|destruct (String.eqb file_type "definition")];
      (destruct (String.eqb file_type' "list");
       [|destruct (String.eqb file_type' "definition")]);
      destruct t, t'; try congruence; discriminate H.
Qed.

(** ** Items in neither tally *)

Lemma export_resource_settled (w : World) (t : ResourceType)
    (total index : nat) (resource : pyval) :
  hoare settled (export_resource w t total index resource)
    (fun _ => settled) (fun _ _ => True).
Proof.
  intros s H. unfold settled in *.
  run_script; try exact I;
    intros t'; specialize (H t'); simpl;
    repeat match goal with
           | E : _ = _ |- _ => rewrite E
           end;
    simpl; destruct (ResourceType_eqb t' t); simpl; lia.
Qed.

Lemma export_type_settled (w : World) (t : ResourceType) :
  hoare settled (export_type w t) (fun _ => settled) (fun _ _ => True).
Proof.
  apply hoare_export_type.
  - intros s H. rewrite list_quicksight_resources_eq. unfold settled in *.
    destruct (aws_list w (trace s) t) as [response|error|error];
      [destruct (dict_truthy response)| |];
      try (run_script; try exact I; intros t'; apply H).
  - intros e s _ _. exact I.
  - intros. apply export_resource_settled.
Qed.

Lemma main_settled (w : World) (type_arg : option string) (s : State) :
  main w type_arg = Raise (SystemExit None) s ->
  no_dir_failure s ->
  settled s.
Proof.
  rewrite main_eq. intros Hrun Hclean.
  assert (H0 : settled initial) by (intros t'; reflexivity).
  pose proof (hoare_export_types w settled (fun _ _ => True)
                (export_type_settled w) (resource_types type_arg)
                initial H0) as Hs.
  pose proof (export_types_left w (resource_types type_arg)) as Hleft.
  destruct (export_types w (resource_types type_arg) initial) as [a s1|e s1].
  - rewrite finish_export_eq in Hrun. injection Hrun as <-. exact Hs.
  - injection Hrun as -> ->. destruct Hleft as [[_ Ha]|[He _]].
    + apply aborted_dir_failure in Ha. unfold no_dir_failure in Hclean.
      congruence.
    + discriminate He.
Qed.

(** X11: in a run closed by [finish_export] without any failed directory
    creation, the items listed for a type are the successes, the failures
    and the items whose describe call returned an error object or an empty
    response: these last ones are in neither counter. *)
Theorem listed_items_add_up
    (w : World) (type_arg : option string) (s : State) (t : ResourceType) :
  main w type_arg = Raise (SystemExit None) s ->
  no_dir_failure s ->
  get (successes s) t + get (failures s) t + skipped t (trace s)
  = listed t (trace s).
Proof.
  intros Hrun Hclean.
  pose proof (main_accounted w type_arg t) as Ha. rewrite Hrun in Ha.
  simpl in Ha. destruct Ha as [Hsu Hfa].
  rewrite <- (main_fetched w type_arg s t Hrun Hclean).
  rewrite (main_settled w type_arg s Hrun Hclean t), Hsu, Hfa. lia.
Qed.

(** ** Edges of the loops *)

(** X12: a list response whose sequence of resources is empty still gets
    its list file; the body of the loop then ends without any describe
    call, with the counters as they were and nothing more printed. *)
Theorem empty_list_is_saved
    (w : World) (t : ResourceType) (s : State) (response : dict)
    (o : DirOutcome) :
  aws_list w (trace s) t = ApiReturn response ->
  dict_get (json_object_name t) response = Some (PList []) ->
  fs_makedirs w (EvList t (ApiReturn response) :: trace s) (definitions_dir t)
  = o ->
  o <> DirFailed ->
  exists s' saved,
    export_type w t s = Ok tt s'
    /\ trace s'
       = EvWrite (definitions_dir t ++ type_name t ++ "-list.json") response
           saved
         :: EvMakedirs (definitions_dir t) o
         :: EvList t (ApiReturn response) :: trace s
    /\ successes s' = successes s /\ failures s' = failures s
    /\ stdout s' = RetrievedList t :: stdout s.
Proof.
  intros Hl Hget Ho Hne.
  rewrite export_type_eq, list_quicksight_resources_eq, Hl.
  assert (Ht : dict_truthy response = true)
    by (destruct response; [discriminate Hget|reflexivity]).
  rewrite Ht. cbn [py_getitem]. rewrite Hget. cbn [py_iter].
  unfold_script. simpl. rewrite Ho.
  destruct o; try congruence; simpl;
    (split_match; simpl; eexists; eexists; repeat split; reflexivity).
Qed.

(** X13: the name of a resource is read only when its definition is to be
    saved: when the client cannot be built, or the describe call raises, or
    returns an empty response, or returns a response with an error object,
    two resources with the same identifier are processed alike, whatever
    their other fields. *)
Theorem names_are_read_only_to_save
    (w : World) (t : ResourceType) (total index : nat)
    (resource resource' resource_id : pyval) (s : State) :
  py_getitem resource (json_object_id t) = inr resource_id ->
  py_getitem resource' (json_object_id t) = inr resource_id ->
  match aws_describe w (trace s) t resource_id with
  | ApiRaise _ => True
  | ClientRaise _ => True
  | ApiReturn response =>
      dict_truthy response = false \/ dict_has "Error" response = true
  end ->
  export_resource w t total index resource s
  = export_resource w t total index resource' s.
Proof.
  intros Hid Hid' Hd. unfold export_resource.
  unfold bind at 1. unfold lift at 1. rewrite Hid.
  symmetry. unfold bind at 1. unfold lift at 1. rewrite Hid'. symmetry.
  unfold bind at 1. symmetry. unfold bind at 1. symmetry.
  assert (Hr : match get_quicksight_resource w t resource_id s with
               | Ok (Some definition) _ => dict_truthy definition = false
               | _ => True
               end).
  { run_script; try exact I; destruct Hd; congruence. }
  destruct (get_quicksight_resource w t resource_id s)
    as [[definition|] s1|e s1]; try reflexivity.
  rewrite Hr. reflexivity.
Qed.

(** X14: a resource without the identifier field of its type stops the run
    before any call is made for it, and a resource without [Name] whose
    definition was fetched stops it right after the describe call; in both
    cases a [KeyError] escapes, no counter has changed, and the resources
    that follow in the list are not processed. *)
Theorem missing_fields_stop_the_loop
    (w : World) (t : ResourceType) (total index : nat)
    (fields : dict) (rest : list pyval) (s : State) :
  (dict_get (json_object_id t) fields = None ->
   export_resources w t total index (PDict fields :: rest) s
   = Raise (KeyError (json_object_id t)) s)
  /\ (forall (resource_id : pyval) (definition : dict),
        dict_get (json_object_id t) fields = Some resource_id ->
        dict_get "Name" fields = None ->
        aws_describe w (trace s) t resource_id = ApiReturn definition ->
        dict_has "Error" definition = false ->
        dict_truthy definition = true ->
        export_resources w t total index (PDict fields :: rest) s
        = Raise (KeyError "Name")
            {| successes := successes s; failures := failures s;
               log := (INFO, Retrieved t) :: log s;
               stdout := stdout s;
               trace := EvDescribe t resource_id (ApiReturn definition)
                        :: trace s |}).
Proof.
  split.
  - intros Hid. simpl. unfold_script. simpl. rewrite Hid. reflexivity.
  - intros resource_id definition Hid Hname Hd He Ht.
    simpl. unfold_script. simpl. rewrite Hid, Hd, He, Ht, Hname. reflexivity.
Qed.

(** ** The writer outside its two kinds *)

(** X15: for a kind of file that is neither ['list'] nor ['definition'],
    the writer writes [definitions/<type>/<name>] and changes no counter;
    when the file is saved nothing tells so in the log, when it is not the
    error is logged. *)
Theorem other_kinds_are_not_counted
    (w : World) (t : ResourceType) (name file_type : string)
    (json_data : dict) (s : State) (o : DirOutcome) (saved : bool) :
  file_type <> "list" -> file_type <> "definition" ->
  fs_makedirs w (trace s) (definitions_dir t) = o ->
  o <> DirFailed ->
  fs_dump w (EvMakedirs (definitions_dir t) o :: trace s)
    (definitions_dir t ++ name) json_data = saved ->
  write_json_file w t name file_type json_data s
  = Ok tt
      {| successes := successes s; failures := failures s;
         log := (if saved then [] else [(ERROR, SaveFailed name t)])
                ++ match o with
                   | DirCreated => [(INFO, CreatedDir (definitions_dir t))]
                   | _ => []
                   end
                ++ log s;
         stdout := stdout s;
         trace := EvWrite (definitions_dir t ++ name) json_data saved
                  :: EvMakedirs (definitions_dir t) o :: trace s |}.
Proof.
  intros Hl Hd Ho Hne Hs.
  apply String.eqb_neq in Hl, Hd.
  assert (Hb : build_filename (definitions_dir t) t name file_type
               = (definitions_dir t ++ name)%string)
    by (unfold build_filename; rewrite Hl, Hd; reflexivity).
  rewrite <- Hb in *.
  unfold_script. simpl. rewrite Ho.
  destruct o; try congruence; simpl; rewrite Hs, Hl, Hd;
    destruct saved; reflexivity.
Qed.

(** ** A client that cannot be built *)

(** X16: when [boto3] cannot build the client, the exception escapes with
    nothing logged, printed or counted.  In the lister this ends the loop
    over the types at that type; in the fetcher it ends the loop over the
    resources at that resource, which is in neither tally. *)
Theorem unbuilt_client_stops_the_run :
  (forall (w : World) (t : ResourceType) (rest : list ResourceType)
          (s : State) (error : string),
      aws_list w (trace s) t = ClientRaise error ->
      export_types w (t :: rest) s
      = Raise (BotoCoreError error)
          {| successes := successes s; failures := failures s;
             log := log s; stdout := stdout s;
             trace := EvList t (ClientRaise error) :: trace s |})
  /\ (forall (w : World) (t : ResourceType) (total index : nat)
             (fields : dict) (rest : list pyval) (resource_id : pyval)
             (s : State) (error : string),
        dict_get (json_object_id t) fields = Some resource_id ->
        aws_describe w (trace s) t resource_id = ClientRaise error ->
        export_resources w t total index (PDict fields :: rest) s
        = Raise (BotoCoreError error)
            {| successes := successes s; failures := failures s;
               log := log s; stdout := stdout s;
               trace := EvDescribe t resource_id (ClientRaise error)
                        :: trace s |}).
Proof.
  split.
  - intros w t rest s error H. simpl. unfold bind at 1.
    rewrite export_type_eq, list_quicksight_resources_eq, H. reflexivity.
  - intros w t total index fields rest resource_id s error Hid H.
    simpl. unfold_script. simpl. rewrite Hid, H. reflexivity.
Qed.

(** ** The further properties at work on the example worlds *)

(** All three dashboards are fetched. *)
Lemma every_listed_item_witness :
  describes dashboards (trace (final (main three_dashboards (Some "b"))))
  = listed dashboards (trace (final (main three_dashboards (Some "b")))).
Proof.
  apply (every_listed_item_is_fetched three_dashboards (Some "b")
           (final (main three_dashboards (Some "b"))) dashboards);
    vm_compute; reflexivity.
Defined.

(** The two data sets are described in the order of the list. *)
Lemma describe_calls_witness :
  exists ids,
    Forall2 (fun resource resource_id =>
               py_getitem resource (json_object_id data_sets) = inr resource_id)
      [summary data_sets "s1" "Sales/Q1"; summary data_sets "s2" "Sales-Q2"]
      ids
    /\ rev (described
              (trace (final (export_resources two_data_sets data_sets 2 0
                               [summary data_sets "s1" "Sales/Q1";
                                summary data_sets "s2" "Sales-Q2"] initial))))
       = rev (described (trace initial)) ++ map (pair data_sets) ids.
Proof.
  apply (describe_calls_follow_the_list two_data_sets data_sets 2 0
           [summary data_sets "s1" "Sales/Q1"; summary data_sets "s2" "Sales-Q2"]
           initial
           (final (export_resources two_data_sets data_sets 2 0
                     [summary data_sets "s1" "Sales/Q1";
                      summary data_sets "s2" "Sales-Q2"] initial))).
  vm_compute. reflexivity.
Defined.

(** Two lines of progress although the second data set was not saved. *)
Lemma progress_witness :
  rev (stdout (final (export_resources two_data_sets data_sets 2 0
                        [summary data_sets "s1" "Sales/Q1";
                         summary data_sets "s2" "Sales-Q2"] initial)))
  = rev (stdout initial) ++ progress_lines data_sets 2 0 2.
Proof.
  apply (progress_counts_every_item two_data_sets data_sets 2 0
           [summary data_sets "s1" "Sales/Q1"; summary data_sets "s2" "Sales-Q2"]
           initial).
  vm_compute. reflexivity.
Defined.

(** Without [-t] the three list operations are called in turn. *)
Lemma list_calls_witness :
  rev (listed_types (trace (final (main two_data_sets None))))
  = resource_types None.
Proof.
  apply (proj2 (list_calls_follow_the_selection two_data_sets None));
    vm_compute; reflexivity.
Defined.

(** The last write of the run over the three dashboards. *)
Lemma files_hold_the_responses_witness :
  exists t o call rest,
    tl (trace (final (main three_dashboards (Some "b"))))
    = EvMakedirs (definitions_dir t) o :: call :: rest
    /\ o <> DirFailed
    /\ starts_with (definitions_dir t)
         "definitions/dashboards/Gamma-dashboards.json" = true
    /\ dict_truthy (definition_of (PStr "d3")) = true
    /\ ((exists resource_id,
            call = EvDescribe t resource_id
                     (ApiReturn (definition_of (PStr "d3")))
            /\ dict_has "Error" (definition_of (PStr "d3")) = false)
        \/ (call = EvList t (ApiReturn (definition_of (PStr "d3")))
            /\ "definitions/dashboards/Gamma-dashboards.json"
               = build_filename (definitions_dir t) t "" "list")).
Proof.
  apply (files_hold_the_responses three_dashboards (Some "b") []
           (tl (trace (final (main three_dashboards (Some "b")))))
           "definitions/dashboards/Gamma-dashboards.json"
           (definition_of (PStr "d3")) true).
  vm_compute. reflexivity.
Defined.

Lemma plain_names_witness :
  replace "/" "--" "Sales-Q2" = "Sales-Q2"
  /\ build_filename (definitions_dir data_sets) data_sets
       (replace "/" "--" "Sales-Q2") "definition"
     = "definitions/data_sets/Sales-Q2-data_sets.json".
Proof.
  exact (plain_names_are_kept data_sets "Sales-Q2" eq_refl).
Defined.

Lemma kinds_and_types_witness :
  build_filename (definitions_dir data_sets) data_sets "Costs" "definition"
  <> build_filename (definitions_dir analyses) analyses "Costs" "definition".
Proof.
  refine (proj2 kinds_and_types_do_not_collide data_sets analyses
            "Costs" "Costs" "definition" "definition" _).
  discriminate.
Defined.

(** Two saved, none failed, one with an error object: three listed. *)
Lemma listed_items_witness :
  get (successes (final (main three_dashboards (Some "b")))) dashboards
  + get (failures (final (main three_dashboards (Some "b")))) dashboards
  + skipped dashboards (trace (final (main three_dashboards (Some "b"))))
  = listed dashboards (trace (final (main three_dashboards (Some "b")))).
Proof.
  apply (listed_items_add_up three_dashboards (Some "b")
           (final (main three_dashboards (Some "b"))) dashboards);
    vm_compute; reflexivity.
Defined.

(** No data set in the account of the three dashboards. *)
Lemma empty_list_witness :
  exists s' saved,
    export_type three_dashboards data_sets initial = Ok tt s'
    /\ trace s'
       = EvWrite (definitions_dir data_sets ++ type_name data_sets
                  ++ "-list.json") (listing data_sets []) saved
         :: EvMakedirs (definitions_dir data_sets) DirCreated
         :: EvList data_sets (ApiReturn (listing data_sets []))
         :: trace initial
    /\ successes s' = successes initial /\ failures s' = failures initial
    /\ stdout s' = RetrievedList data_sets :: stdout initial.
Proof.
  refine (empty_list_is_saved three_dashboards data_sets initial
            (listing data_sets []) DirCreated eq_refl eq_refl eq_refl _).
  discriminate.
Defined.

(** A summary without name is processed like the named one when the
    describe call raises. *)
Lemma names_witness :
  export_resource unreachable_definitions analyses 2 0
    (summary analyses "a1" "Costs") initial
  = export_resource unreachable_definitions analyses 2 0
      (PDict [("AnalysisId", PStr "a1")]) initial.
Proof.
  exact (names_are_read_only_to_save unreachable_definitions analyses 2 0
           (summary analyses "a1" "Costs") (PDict [("AnalysisId", PStr "a1")])
           (PStr "a1") initial eq_refl eq_refl I).
Defined.

(** A summary that only has a name. *)
Lemma missing_fields_witness :
  export_resources two_data_sets data_sets 2 0
    [PDict [("Name", PStr "Sales/Q1")]; summary data_sets "s2" "Sales-Q2"]
    initial
  = Raise (KeyError "DataSetId") initial.
Proof.
  exact (proj1 (missing_fields_stop_the_loop two_data_sets data_sets 2 0
                  [("Name", PStr "Sales/Q1")]
                  [summary data_sets "s2" "Sales-Q2"] initial) eq_refl).
Defined.

Lemma other_kinds_witness :
  write_json_file two_data_sets data_sets "notes.csv" "csv" [] initial
  = Ok tt
      {| successes := zero; failures := zero;
         log := [(INFO, CreatedDir (definitions_dir data_sets))];
         stdout := [];
         trace := [EvWrite (definitions_dir data_sets ++ "notes.csv") [] true;
                   EvMakedirs (definitions_dir data_sets) DirCreated] |}.
Proof.
  refine (other_kinds_are_not_counted two_data_sets data_sets "notes.csv" "csv"
            [] initial DirCreated true _ _ eq_refl _ eq_refl);
    discriminate.
Defined.

(** With an invalid region the run ends at the first type. *)
Lemma unbuilt_client_witness :
  export_types invalid_region [data_sets; analyses] initial
  = Raise (BotoCoreError "InvalidRegionError")
      {| successes := zero; failures := zero; log := []; stdout := [];
         trace := [EvList data_sets (ClientRaise "InvalidRegionError")] |}.
Proof.
  exact (proj1 unbuilt_client_stops_the_run invalid_region data_sets
           [analyses] initial "InvalidRegionError" eq_refl).
Defined.
